(** * The CLIP search engine of [src/search.py]: a shallow embedding

    The development follows the layout of the Python module: the exception
    hierarchy, the configuration class, the numeric primitives the engine
    calls (row normalisation, matrix-vector product, top-k selection), and
    the [CLIPSearchEngine] class with its methods written in a small
    state-and-exception monad over the instance attributes.

    In the engine the tensors hold real numbers and the float16/float32
    distinction is kept as a tag: what is proved of the engine is about
    counts, identifiers, positions and the order of the scores as they are
    computed.  The values of the scores are rounded ones; their binary32
    arithmetic is the module [Float32]. *)

From Stdlib Require Import ZArith NArith List Bool Lia String Ascii.
From Stdlib Require Import Reals Lra Psatz Sorted.
From Stdlib Require Import SpecFloat.
Import ListNotations.

Set Implicit Arguments.

(* ====================================================================== *)
(** ** Exceptions *)
(* ====================================================================== *)

(** The exception classes that occur in the module: the three classes it
    defines, and the built-in ones its collaborators raise. *)
Inductive exc_class : Type :=
| BaseException
| KeyboardInterrupt
| Exception
| TypeError
| ValueError
| RuntimeError
| AttributeError
| IndexError
| OSError
| FileNotFoundError
| SearchError
| InitializationError
| InvalidQueryError.

Definition exc_class_eq_dec (c d : exc_class) : {c = d} + {c <> d}.
Proof. decide equality. Defined.

Definition exc_class_eqb (c d : exc_class) : bool :=
  if exc_class_eq_dec c d then true else false.

(** The direct base class, as in the [class X(Y)] headers. *)
Definition base (c : exc_class) : option exc_class :=
  match c with
  | BaseException => None
  | KeyboardInterrupt => Some BaseException
  | Exception => Some BaseException
  | TypeError | ValueError | RuntimeError | AttributeError
  | IndexError | OSError => Some Exception
  | FileNotFoundError => Some OSError
  | SearchError => Some Exception
  | InitializationError => Some SearchError
  | InvalidQueryError => Some SearchError
  end.

Fixpoint issubclass_upto (fuel : nat) (c d : exc_class) : bool :=
  exc_class_eqb c d ||
  match fuel with
  | O => false
  | S fuel' =>
      match base c with
      | None => false
      | Some b => issubclass_upto fuel' b d
      end
  end.

(** No class of the hierarchy is more than three steps below its root. *)
Definition issubclass (c d : exc_class) : bool := issubclass_upto 4 c d.

(** A raised exception: its class and, for [raise X(...) from e], the
    exception [e] it was raised from. *)
Inductive exn : Type :=
| Exn (cls : exc_class)
| ExnFrom (cls : exc_class) (cause : exn).

Definition exn_class (e : exn) : exc_class :=
  match e with Exn c | ExnFrom c _ => c end.

Definition isinstance_exn (e : exn) (c : exc_class) : bool :=
  issubclass (exn_class e) c.

(** The handler a [try] statement selects: the first [except] clause whose
    class the exception is an instance of. *)
Fixpoint first_handler (handlers : list exc_class) (e : exn) : option nat :=
  match handlers with
  | [] => None
  | h :: rest =>
      if isinstance_exn e h then Some O
      else option_map S (first_handler rest e)
  end.

(** The clause order of [interactive_search] and of the request handler:
    [except InvalidQueryError] before [except SearchError]. *)
Definition interactive_search_handlers : list exc_class :=
  [InvalidQueryError; SearchError].

(** Outcome of a call: a value or a raised exception. *)
Inductive res (A : Type) : Type :=
| Ret (a : A)
| Raise (e : exn).

Arguments Ret {A} a.
Arguments Raise {A} e.

(* ====================================================================== *)
(** ** Python values and strings *)
(* ====================================================================== *)

(** A [str] is a sequence of Unicode code points. *)
Definition pystr : Type := list N.

Definition pystr_of_string (s : string) : pystr :=
  map N_of_ascii (list_ascii_of_string s).

(** [str.isspace] on one code point: the Unicode whitespace characters. *)
Definition isspace (c : N) : bool :=
  ((9 <=? c) && (c <=? 13) || (28 <=? c) && (c <=? 32)
   || (c =? 133) || (c =? 160) || (c =? 5760)
   || (8192 <=? c) && (c <=? 8202)
   || (c =? 8232) || (c =? 8233) || (c =? 8239) || (c =? 8287)
   || (c =? 12288))%N.

Fixpoint lstrip (s : pystr) : pystr :=
  match s with
  | [] => []
  | c :: s' => if isspace c then lstrip s' else s
  end.

Definition rstrip (s : pystr) : pystr := rev (lstrip (rev s)).

(** [s.strip()] *)
Definition strip (s : pystr) : pystr := rstrip (lstrip s).

(** [len(s)] *)
Definition len {A : Type} (l : list A) : Z := Z.of_nat (List.length l).

(** The values a caller can pass for [query] and [top_k]. *)
Inductive pyval : Type :=
| PyNone
| PyBool (b : bool)
| PyInt (z : Z)
| PyFloat (x : R)
| PyStr (s : pystr)
| PyObject (tag : nat).

(** [isinstance(v, str)] *)
Definition isinstance_str (v : pyval) : bool :=
  match v with PyStr _ => true | _ => false end.

(** [isinstance(v, int)]: [bool] is a subclass of [int]. *)
Definition isinstance_int (v : pyval) : bool :=
  match v with PyInt _ | PyBool _ => true | _ => false end.

(** The integer an [int] instance denotes. *)
Definition int_value (v : pyval) : option Z :=
  match v with
  | PyInt z => Some z
  | PyBool true => Some 1%Z
  | PyBool false => Some 0%Z
  | _ => None
  end.

(** [min(a, n)] for an [int] instance [a] and an [int] [n]: the first
    argument unless the second is strictly smaller. *)
Definition py_min (a : pyval) (n : Z) : pyval :=
  match int_value a with
  | Some z => if (n <? z)%Z then PyInt n else a
  | None => a
  end.

(* ====================================================================== *)
(** ** Numeric primitives *)
(* ====================================================================== *)

(** [torch.topk(xs, k, largest=True)]: the [k] largest entries in
    descending order together with their positions; [None] stands for the
    library's "k out of range" error.  Among equal entries the earlier
    position comes first (the library leaves that order open). *)
Section TopK.

Variable A : Type.
Variable ltb : A -> A -> bool.

Definition enumerate (xs : list A) : list (nat * A) :=
  combine (seq 0 (List.length xs)) xs.

Fixpoint insert_desc (x : nat * A) (l : list (nat * A)) : list (nat * A) :=
  match l with
  | [] => [x]
  | y :: l' => if ltb (snd x) (snd y) then y :: insert_desc x l' else x :: l
  end.

Definition sort_desc (l : list (nat * A)) : list (nat * A) :=
  fold_right insert_desc [] l.

Definition topk (xs : list A) (k : Z) : option (list A * list nat) :=
  if ((0 <=? k) && (k <=? len xs))%Z then
    let top := firstn (Z.to_nat k) (sort_desc (enumerate xs)) in
    Some (map snd top, map fst top)
  else None.

End TopK.

Definition Rltb (a b : R) : bool := if Rlt_dec a b then true else false.

(** Inner product of two vectors. *)
Fixpoint dot (a b : list R) : R :=
  match a, b with
  | x :: a', y :: b' => (x * y + dot a' b')%R
  | _, _ => 0%R
  end.

Definition norm2 (v : list R) : R := sqrt (dot v v).

(** The [eps] of [F.normalize], 1e-12. *)
Definition eps : R := (/ 1000000000000)%R.

(** [F.normalize(v, p=2)] on one vector: [v / max(||v||, eps)]. *)
Definition F_normalize (v : list R) : list R :=
  map (fun x => (x / Rmax (norm2 v) eps)%R) v.

Inductive dtype : Type := float16 | float32.

(** A two-dimensional tensor of shape [[N, t_dim]].  The entries are real
    numbers: the engine is described up to the rounding of its binary16 or
    binary32 arithmetic, and what is proved of it below is about counts,
    positions and order.  The rounded arithmetic itself is [Float32]. *)
Record Tensor : Type := {
  t_dtype : dtype;
  t_dim : nat;
  t_rows : list (list R)
}.

(** [F.normalize(t, p=2, dim=1)] *)
Definition normalize_rows (t : Tensor) : Tensor :=
  {| t_dtype := t_dtype t; t_dim := t_dim t;
     t_rows := map F_normalize (t_rows t) |}.

(** [t @ q] for a vector [q]: a shape mismatch is a [RuntimeError]. *)
Definition matvec (t : Tensor) (q : list R) : res (list R) :=
  if Nat.eqb (t_dim t) (List.length q)
  then Ret (map (fun r => dot r q) (t_rows t))
  else Raise (Exn RuntimeError).

(** [torch.topk(sims, k=k, largest=True)] as called by [search]: [k] must
    be a plain [int] within range. *)
Definition torch_topk (sims : list R) (k : pyval) : res (list R * list nat) :=
  match k with
  | PyInt z =>
      match topk Rltb sims z with
      | Some r => Ret r
      | None => Raise (Exn RuntimeError)
      end
  | _ => Raise (Exn TypeError)
  end.

(* ====================================================================== *)
(** ** Configuration and environment *)
(* ====================================================================== *)

(** The attributes read from a configuration object.  [EMBEDDINGS_DIR] is
    what the instance shows; [cls_EMBEDDINGS_DIR] is the attribute of its
    class, which the class method [validate] reads. *)
Record Config : Type := {
  EMBEDDINGS_DIR : string;
  cls_EMBEDDINGS_DIR : string;
  MODEL_NAME : string;
  PRETRAINED : string;
  TOKENIZER_NAME : option string;
  DEVICE : string;
  DTYPE : string;
  NORMALIZE_EMBEDDINGS : bool;
  DEFAULT_TOP_K : Z;
  MIN_QUERY_LENGTH : Z;
  MAX_QUERY_LENGTH : Z
}.

(** The class attributes when no environment variable overrides them. *)
Definition Config_defaults (embeddings_dir : string) : Config :=
  {| EMBEDDINGS_DIR := embeddings_dir;
     cls_EMBEDDINGS_DIR := embeddings_dir;
     MODEL_NAME := "ViT-B-32"%string;
     PRETRAINED := "openai"%string;
     TOKENIZER_NAME := None;
     DEVICE := "cpu"%string;
     DTYPE := "auto"%string;
     NORMALIZE_EMBEDDINGS := true;
     DEFAULT_TOP_K := 5;
     MIN_QUERY_LENGTH := 2;
     MAX_QUERY_LENGTH := 512 |}.

(** A loaded embeddings array of shape [[N, nd_dim]].  Its entries can be
    of any [dtype]; whether they convert to a tensor is told by [to_device]
    below, and [nd_rows] gives them as numbers when they do. *)
Record ndarray : Type := {
  nd_dim : nat;
  nd_rows : list (list R)
}.

(** What [np.load] gives on a file, with and without [mmap_mode]. *)
Record emb_file : Type := {
  load_mmap : res ndarray;
  load_plain : res ndarray
}.

Record names_file : Type := {
  load_pickle : res (list pystr)
}.

Record snapshot_dir : Type := {
  image_embeddings_npy : option emb_file;
  image_filenames_npy : option names_file
}.

Definition tokens : Type := list (list Z).

(** The model capability. *)
Record Model : Type := {
  eval : res unit;
  encode_text : tokens -> res (list (list R))
}.

Definition Tokenizer : Type := list pyval -> res tokens.

Record Device : Type := {
  device_type : string
}.

(** The collaborators of the module: the file system, [numpy], [torch],
    [open_clip] and the [Config] class as evaluated at import time.

    [to_device a dev dt] is the outcome of
    [torch.from_numpy(np.ascontiguousarray(a.astype(np.float32))).to(dev, dtype=dt)]:
    the tensor is made, or an exception is raised (an array of strings is
    not cast to [float32]; a device can be out of memory).
    [normalize_dim1 t] is the outcome of [F.normalize(t, p=2, dim=1)] in the
    same sense. *)
Record Env : Type := {
  fs : string -> option snapshot_dir;
  torch_device : string -> res Device;
  cuda_is_available : bool;
  create_model_and_transforms : string -> string -> string -> res Model;
  get_tokenizer : string -> res Tokenizer;
  open_clip_tokenize : Tokenizer;
  to_device : ndarray -> Device -> dtype -> res unit;
  normalize_dim1 : Tensor -> res unit;
  Config_class : Config
}.

(** [Config.validate] *)
Definition validate (env : Env) (cfg : Config) : bool :=
  match fs env (cls_EMBEDDINGS_DIR cfg) with
  | None => false
  | Some d =>
      match image_embeddings_npy d with
      | None => false
      | Some _ =>
          match image_filenames_npy d with
          | None => false
          | Some _ => true
          end
      end
  end.

(* ====================================================================== *)
(** ** Engine state and the monad of its methods *)
(* ====================================================================== *)

(** An instance attribute that [del] can remove. *)
Inductive attr (A : Type) : Type :=
| Deleted
| Bound (v : A).

Arguments Deleted {A}.
Arguments Bound {A} v.

(** The instance attributes of a [CLIPSearchEngine]; [None] is Python's
    [None]. *)
Record Engine : Type := {
  config : Config;
  model : attr (option Model);
  tokenizer : option Tokenizer;
  image_embeddings : option ndarray;
  image_filenames : option (list pystr);
  image_embeddings_t : option Tensor;
  device : Device
}.

(** The calls into the tokenizer, the model and the numeric library. *)
Inductive event : Type :=
| EvTokenize (batch : list pyval)
| EvEncodeText (t : tokens)
| EvNormalize
| EvMatmul
| EvTopk (k : pyval)
| EvEmptyCache.

Record World : Type := {
  self : Engine;
  calls : list event
}.

Definition Py (A : Type) : Type := World -> res A * World.

Definition ret {A : Type} (a : A) : Py A := fun w => (Ret a, w).

Definition raise {A : Type} (e : exn) : Py A := fun w => (Raise e, w).

Definition bind {A B : Type} (m : Py A) (k : A -> Py B) : Py B :=
  fun w =>
    match m w with
    | (Ret a, w') => k a w'
    | (Raise e, w') => (Raise e, w')
    end.

Definition lift {A : Type} (r : res A) : Py A := fun w => (r, w).

Definition gets {A : Type} (f : Engine -> A) : Py A :=
  fun w => (Ret (f (self w)), w).

Definition modify (f : Engine -> Engine) : Py unit :=
  fun w => (Ret tt, {| self := f (self w); calls := calls w |}).

Definition log (ev : event) : Py unit :=
  fun w => (Ret tt, {| self := self w; calls := calls w ++ [ev] |}).

(** [try: body  except Exception as e: handler e] *)
Definition try_except {A : Type} (body : Py A) (handler : exn -> Py A) : Py A :=
  fun w =>
    match body w with
    | (Ret a, w') => (Ret a, w')
    | (Raise e, w') =>
        if isinstance_exn e Exception then handler e w' else (Raise e, w')
    end.

Declare Scope py_scope.
Delimit Scope py_scope with py.
Notation "x <- m ;; k" := (bind m (fun x => k))
  (at level 61, m at next level, right associativity) : py_scope.
Notation "m ;; k" := (bind m (fun _ => k))
  (at level 61, right associativity) : py_scope.
Open Scope py_scope.

(* ====================================================================== *)
(** ** class CLIPSearchEngine *)
(* ====================================================================== *)

Module CLIPSearchEngine.

Local Open Scope string_scope.

Definition set_model (v : attr (option Model)) (e : Engine) : Engine :=
  {| config := config e; model := v; tokenizer := tokenizer e;
     image_embeddings := image_embeddings e;
     image_filenames := image_filenames e;
     image_embeddings_t := image_embeddings_t e; device := device e |}.

Definition set_tokenizer (v : option Tokenizer) (e : Engine) : Engine :=
  {| config := config e; model := model e; tokenizer := v;
     image_embeddings := image_embeddings e;
     image_filenames := image_filenames e;
     image_embeddings_t := image_embeddings_t e; device := device e |}.

Definition set_image_embeddings (v : option ndarray) (e : Engine) : Engine :=
  {| config := config e; model := model e; tokenizer := tokenizer e;
     image_embeddings := v;
     image_filenames := image_filenames e;
     image_embeddings_t := image_embeddings_t e; device := device e |}.

Definition set_image_filenames (v : option (list pystr)) (e : Engine) : Engine :=
  {| config := config e; model := model e; tokenizer := tokenizer e;
     image_embeddings := image_embeddings e;
     image_filenames := v;
     image_embeddings_t := image_embeddings_t e; device := device e |}.

Definition set_image_embeddings_t (v : option Tensor) (e : Engine) : Engine :=
  {| config := config e; model := model e; tokenizer := tokenizer e;
     image_embeddings := image_embeddings e;
     image_filenames := image_filenames e;
     image_embeddings_t := v; device := device e |}.

(** Reading [self.model]: an [AttributeError] once the attribute is
    deleted. *)
Definition getattr_model : Py (option Model) :=
  fun w =>
    match model (self w) with
    | Deleted => (Raise (Exn AttributeError), w)
    | Bound v => (Ret v, w)
    end.

(** [np.load(embeddings_file, mmap_mode="r")], and on a [TypeError]
    [np.load(embeddings_file)]. *)
Definition np_load_embeddings (env : Env) (dir : string) : res ndarray :=
  match fs env dir with
  | None => Raise (Exn FileNotFoundError)
  | Some d =>
      match image_embeddings_npy d with
      | None => Raise (Exn FileNotFoundError)
      | Some f =>
          match load_mmap f with
          | Ret a => Ret a
          | Raise e =>
              if isinstance_exn e TypeError then load_plain f else Raise e
          end
      end
  end.

(** [np.load(filenames_file, allow_pickle=True)] *)
Definition np_load_filenames (env : Env) (dir : string) : res (list pystr) :=
  match fs env dir with
  | None => Raise (Exn FileNotFoundError)
  | Some d =>
      match image_filenames_npy d with
      | None => Raise (Exn FileNotFoundError)
      | Some f => load_pickle f
      end
  end.

(** [self.config.TOKENIZER_NAME or self.config.MODEL_NAME] *)
Definition tokenizer_name (cfg : Config) : string :=
  match TOKENIZER_NAME cfg with
  | Some n => if String.eqb n "" then MODEL_NAME cfg else n
  | None => MODEL_NAME cfg
  end.

(** The [dtype] the stored embeddings are moved to the device with. *)
Definition device_dtype (cfg : Config) (dev : Device) : dtype :=
  if String.eqb (DTYPE cfg) "float16"
     || (String.eqb (DTYPE cfg) "auto" && String.eqb (device_type dev) "cuda")
  then float16 else float32.

(** The [try] block of [_initialize].  The stored rows are converted to a
    tensor on the device entry by entry, which can fail as every other
    step; the [dtype] chosen is recorded. *)
Definition _initialize_body (env : Env) (cfg : Config) : Py unit :=
  emb <- lift (np_load_embeddings env (EMBEDDINGS_DIR cfg)) ;;
  modify (set_image_embeddings (Some emb)) ;;
  fns <- lift (np_load_filenames env (EMBEDDINGS_DIR cfg)) ;;
  modify (set_image_filenames (Some fns)) ;;
  if negb (Nat.eqb (List.length (nd_rows emb)) (List.length fns))
  then raise (Exn InitializationError)
  else
    m <- lift (create_model_and_transforms env
                 (MODEL_NAME cfg) (PRETRAINED cfg) (DEVICE cfg)) ;;
    modify (set_model (Bound (Some m))) ;;
    lift (eval m) ;;
    tok <- match get_tokenizer env (tokenizer_name cfg) with
           | Ret t => ret t
           | Raise e =>
               if isinstance_exn e Exception
               then ret (open_clip_tokenize env)
               else raise e
           end ;;
    modify (set_tokenizer (Some tok)) ;;
    dev <- gets device ;;
    lift (to_device env emb dev (device_dtype cfg dev)) ;;
    let emb_t := {| t_dtype := device_dtype cfg dev;
                    t_dim := nd_dim emb; t_rows := nd_rows emb |} in
    if NORMALIZE_EMBEDDINGS cfg
    then
      lift (normalize_dim1 env emb_t) ;;
      modify (set_image_embeddings_t (Some (normalize_rows emb_t)))
    else modify (set_image_embeddings_t (Some emb_t)).

Definition _initialize (env : Env) : Py unit :=
  cfg <- gets config ;;
  if negb (validate env cfg)
  then raise (Exn InitializationError)
  else
    try_except (_initialize_body env cfg)
      (fun e => raise (ExnFrom InitializationError e)).

(** The attributes as [__init__] sets them before [_initialize] runs. *)
Definition fresh (cfg : Config) (dev : Device) : Engine :=
  {| config := cfg; model := Bound None; tokenizer := None;
     image_embeddings := None; image_filenames := None;
     image_embeddings_t := None; device := dev |}.

(** [CLIPSearchEngine(config)]: the constructed engine, or the exception
    that escapes [__init__]. *)
Definition __init__ (env : Env) (cfg0 : option Config) : res Engine :=
  let cfg := match cfg0 with Some c => c | None => Config_class env end in
  match torch_device env (DEVICE cfg) with
  | Raise e => Raise e
  | Ret dev =>
      match _initialize env {| self := fresh cfg dev; calls := [] |} with
      | (Ret _, w) => Ret (self w)
      | (Raise e, _) => Raise e
      end
  end.

(** [isinstance(query, str)] holds of the [PyStr] values only. *)
Definition _validate_query (query : pyval) : Py unit :=
  match query with
  | PyStr s =>
      cfg <- gets config ;;
      let query_stripped := strip s in
      if (len query_stripped <? MIN_QUERY_LENGTH cfg)%Z
      then raise (Exn InvalidQueryError)
      else if (MAX_QUERY_LENGTH cfg <? len query_stripped)%Z
      then raise (Exn InvalidQueryError)
      else ret tt
  | _ => raise (Exn InvalidQueryError)
  end.

(** The property [num_images]. *)
Definition num_images : Py Z :=
  fns <- gets image_filenames ;;
  match fns with
  | None => ret 0%Z
  | Some l => ret (len l)
  end.

(** [[(str(self.image_filenames[i]), float(s)) for i, s in zip(idx, scores)]] *)
Fixpoint build_results (fns : option (list pystr)) (pairs : list (nat * R))
  : res (list (pystr * R)) :=
  match pairs with
  | [] => Ret []
  | (i, s) :: rest =>
      match fns with
      | None => Raise (Exn TypeError)
      | Some l =>
          match nth_error l i with
          | None => Raise (Exn IndexError)
          | Some f =>
              match build_results fns rest with
              | Ret r => Ret ((f, s) :: r)
              | Raise e => Raise e
              end
          end
      end
  end.

(** The [try] block of [search], entered with the clamped [top_k].  Moving
    the token batch and the features to the device, and casting the
    features to the [dtype] of the stored embeddings, change no entry of
    a real-valued tensor and are not steps of their own. *)
Definition search_body (env : Env) (query : pyval) (top_k : pyval)
  : Py (list (pystr * R)) :=
  tok <- gets tokenizer ;;
  let tokenize_fn := match tok with
                     | Some t => t
                     | None => open_clip_tokenize env
                     end in
  log (EvTokenize [query]) ;;
  text_tokens <- lift (tokenize_fn [query]) ;;
  mo <- getattr_model ;;
  match mo with
  | None => raise (Exn AttributeError)
  | Some m =>
      log (EvEncodeText text_tokens) ;;
      text_features <- lift (encode_text m text_tokens) ;;
      emb <- gets image_embeddings_t ;;
      match emb with
      | None => raise (Exn AttributeError)
      | Some emb_t =>
          log EvNormalize ;;
          let text_features := map F_normalize text_features in
          match nth_error text_features 0 with
          | None => raise (Exn IndexError)
          | Some q =>
              log EvMatmul ;;
              similarities <- lift (matvec emb_t q) ;;
              log (EvTopk top_k) ;;
              r <- lift (torch_topk similarities top_k) ;;
              let (scores_list, idx_list) := r in
              fns <- gets image_filenames ;;
              lift (build_results fns (combine idx_list scores_list))
          end
      end
  end.

(** [if top_k is None: top_k = self.config.DEFAULT_TOP_K] *)
Definition resolve_top_k (cfg : Config) (top_k : pyval) : pyval :=
  match top_k with
  | PyNone => PyInt (DEFAULT_TOP_K cfg)
  | _ => top_k
  end.

Definition search (env : Env) (query : pyval) (top_k : pyval)
  : Py (list (pystr * R)) :=
  cfg <- gets config ;;
  let top_k := resolve_top_k cfg top_k in
  _validate_query query ;;
  if negb (isinstance_int top_k)
     || match int_value top_k with
        | Some z => (z <? 1)%Z
        | None => false
        end
  then raise (Exn InvalidQueryError)
  else
    n <- num_images ;;
    let top_k := py_min top_k n in
    try_except (search_body env query top_k)
      (fun e => raise (ExnFrom SearchError e)).

Definition delattr_model : Py unit := modify (set_model Deleted).

Definition cleanup (env : Env) : Py unit :=
  mo <- getattr_model ;;
  match mo with
  | None => ret tt
  | Some _ =>
      delattr_model ;;
      if cuda_is_available env then log EvEmptyCache else ret tt
  end.

Definition __exit__ (env : Env) : Py unit := cleanup env.

End CLIPSearchEngine.

Import CLIPSearchEngine.

(* ====================================================================== *)
(** ** Vocabulary of the properties *)
(* ====================================================================== *)

(** The value of the property [num_images] on given attributes. *)
Definition num_images_of (e : Engine) : Z :=
  match image_filenames e with
  | None => 0%Z
  | Some l => len l
  end.

(** The test of [_validate_query]. *)
Definition query_accepted (cfg : Config) (query : pyval) : bool :=
  match query with
  | PyStr s =>
      negb (len (strip s) <? MIN_QUERY_LENGTH cfg)%Z
      && negb (MAX_QUERY_LENGTH cfg <? len (strip s))%Z
  | _ => false
  end.

(** The test [not isinstance(top_k, int) or top_k < 1]. *)
Definition top_k_rejected (top_k : pyval) : bool :=
  negb (isinstance_int top_k)
  || match int_value top_k with
     | Some z => (z <? 1)%Z
     | None => false
     end.

(** The query is a string whose stripped length is within the bounds. *)
Definition valid_query (cfg : Config) (query : pyval) : Prop :=
  exists s, query = PyStr s /\
    (MIN_QUERY_LENGTH cfg <= len (strip s) <= MAX_QUERY_LENGTH cfg)%Z.

(** [top_k] is an [int] instance of value at least 1. *)
Definition positive_int (v : pyval) : Prop :=
  exists z, int_value v = Some z /\ (1 <= z)%Z.

(** The configuration [__init__] stores: [config or Config()]. *)
Definition config_of (env : Env) (cfg0 : option Config) : Config :=
  match cfg0 with
  | Some c => c
  | None => Config_class env
  end.

Definition raises_InitializationError (r : res Engine) : Prop :=
  exists e, r = Raise e /\ exn_class e = InitializationError.

(** The embeddings directory, or one of the two array files in it, is
    missing where [Config.validate] looks. *)
Definition required_file_absent (env : Env) (cfg : Config) : Prop :=
  match fs env (cls_EMBEDDINGS_DIR cfg) with
  | None => True
  | Some d => image_embeddings_npy d = None \/ image_filenames_npy d = None
  end.

(** Both arrays load, and the row count differs from the number of
    identifiers. *)
Definition rows_mismatch (env : Env) (cfg : Config) : Prop :=
  exists arr names,
    np_load_embeddings env (EMBEDDINGS_DIR cfg) = Ret arr /\
    np_load_filenames env (EMBEDDINGS_DIR cfg) = Ret names /\
    List.length (nd_rows arr) <> List.length names.

(** Loading one of the two arrays raises. *)
Definition load_fails (env : Env) (cfg : Config) : Prop :=
  (exists e, np_load_embeddings env (EMBEDDINGS_DIR cfg) = Raise e) \/
  (exists e, np_load_filenames env (EMBEDDINGS_DIR cfg) = Raise e).

(** Creating the model, or switching it to evaluation mode, raises. *)
Definition model_fails (env : Env) (cfg : Config) : Prop :=
  (exists e, create_model_and_transforms env
               (MODEL_NAME cfg) (PRETRAINED cfg) (DEVICE cfg) = Raise e) \/
  (exists m e, create_model_and_transforms env
                 (MODEL_NAME cfg) (PRETRAINED cfg) (DEVICE cfg) = Ret m /\
               eval m = Raise e).

(** The tensor the loaded array is converted to, before its rows are
    normalised. *)
Definition tensor_of (cfg : Config) (dev : Device) (arr : ndarray) : Tensor :=
  {| t_dtype := device_dtype cfg dev;
     t_dim := nd_dim arr; t_rows := nd_rows arr |}.

(** The embeddings load, and converting them to a tensor on the device
    raises, or normalising the rows of that tensor does when the
    configuration asks for it. *)
Definition tensor_fails (env : Env) (cfg : Config) (dev : Device) : Prop :=
  exists arr,
    np_load_embeddings env (EMBEDDINGS_DIR cfg) = Ret arr /\
    ((exists e, to_device env arr dev (device_dtype cfg dev) = Raise e) \/
     (NORMALIZE_EMBEDDINGS cfg = true /\
      exists e, normalize_dim1 env (tensor_of cfg dev arr) = Raise e)).

(** The condition under which construction is said to fail: a required
    file is absent, or the row count differs from the identifiers length. *)
Definition snapshot_unusable (env : Env) (cfg : Config) : Prop :=
  required_file_absent env cfg \/ rows_mismatch env cfg.

(** A constructed engine: every attribute is set, and the identifiers are
    as many as the rows scored against. *)
Definition Ready (e : Engine) : Prop :=
  exists m tok fns t,
    model e = Bound (Some m) /\
    tokenizer e = Some tok /\
    image_filenames e = Some fns /\
    image_embeddings_t e = Some t /\
    List.length fns = List.length (t_rows t).

(** The tokenizer and the model accept the query and give it the feature
    vector [feat], whose dimension is that of the stored embeddings. *)
Definition encodes (env : Env) (e : Engine) (query : pyval) (feat : list R)
  : Prop :=
  exists m tok toks feats t,
    model e = Bound (Some m) /\
    tokenizer e = Some tok /\
    tok [query] = Ret toks /\
    encode_text m toks = Ret (feat :: feats) /\
    image_embeddings_t e = Some t /\
    List.length feat = t_dim t.

(** A computation is read-only when it leaves the attributes as they were,
    and its result and the calls it makes depend on the attributes alone. *)
Definition readonly {A : Type} (m : Py A) : Prop :=
  forall s, exists r evs, forall tr,
    m {| self := s; calls := tr |} = (r, {| self := s; calls := tr ++ evs |}).

(** In a list of (position, entry) pairs, [x] does not come below [y]. *)
Definition not_below (A : Type) (ltb : A -> A -> bool) (x y : nat * A) : Prop :=
  ltb (snd x) (snd y) = false.

(* ====================================================================== *)
(** ** A small snapshot to run the engine on *)
(* ====================================================================== *)

Module Demo.

Local Open Scope string_scope.

Definition dir_path : string := "data/embeddings".

(** One image, [a.jpg], with the embedding [(2)]. *)
Definition array : ndarray := {| nd_dim := 1; nd_rows := [[2%R]] |}.

Definition names : list pystr := [pystr_of_string "a.jpg"].

Definition dir : snapshot_dir :=
  {| image_embeddings_npy :=
       Some {| load_mmap := Ret array; load_plain := Ret array |};
     image_filenames_npy := Some {| load_pickle := Ret names |} |}.

(** The text encoder maps every query to the vector [(1)]. *)
Definition the_model : Model :=
  {| eval := Ret tt; encode_text := fun _ => Ret [[1%R]] |}.

Definition the_tokenizer : Tokenizer := fun _ => Ret [[49406; 49407]%Z].

Definition env_with (cfg : Config) (d : snapshot_dir) (m : res Model) : Env :=
  {| fs := fun p => if String.eqb p dir_path then Some d else None;
     torch_device := fun s =>
       if String.eqb s "cpu" then Ret {| device_type := "cpu" |}
       else Raise (Exn RuntimeError);
     cuda_is_available := false;
     create_model_and_transforms := fun _ _ _ => m;
     get_tokenizer := fun _ => Ret the_tokenizer;
     open_clip_tokenize := the_tokenizer;
     to_device := fun _ _ _ => Ret tt;
     normalize_dim1 := fun _ => Ret tt;
     Config_class := cfg |}.

(** The default configuration on the snapshot. *)
Definition env : Env := env_with (Config_defaults dir_path) dir (Ret the_model).

(** The same with [NORMALIZE_EMBEDDINGS] switched off. *)
Definition raw_config : Config :=
  {| EMBEDDINGS_DIR := dir_path;
     cls_EMBEDDINGS_DIR := dir_path;
     MODEL_NAME := "ViT-B-32";
     PRETRAINED := "openai";
     TOKENIZER_NAME := None;
     DEVICE := "cpu";
     DTYPE := "auto";
     NORMALIZE_EMBEDDINGS := false;
     DEFAULT_TOP_K := 5;
     MIN_QUERY_LENGTH := 2;
     MAX_QUERY_LENGTH := 512 |}.

Definition raw_env : Env := env_with raw_config dir (Ret the_model).

(** The snapshot is intact, but the model cannot be loaded. *)
Definition env_no_model : Env :=
  env_with (Config_defaults dir_path) dir (Raise (Exn RuntimeError)).

(** The identifiers file is missing. *)
Definition dir_no_names : snapshot_dir :=
  {| image_embeddings_npy :=
       Some {| load_mmap := Ret array; load_plain := Ret array |};
     image_filenames_npy := None |}.

Definition env_no_names : Env :=
  env_with (Config_defaults dir_path) dir_no_names (Ret the_model).

(** A model whose text encoder fails at inference. *)
Definition failing_model : Model :=
  {| eval := Ret tt; encode_text := fun _ => Raise (Exn RuntimeError) |}.

Definition failing_env : Env :=
  env_with (Config_defaults dir_path) dir (Ret failing_model).

(** The embeddings file holds an array of strings, one row for the one
    identifier: it loads, and [astype(np.float32)] raises [ValueError]. *)
Definition env_strings : Env :=
  {| fs := fs env;
     torch_device := torch_device env;
     cuda_is_available := cuda_is_available env;
     create_model_and_transforms := create_model_and_transforms env;
     get_tokenizer := get_tokenizer env;
     open_clip_tokenize := open_clip_tokenize env;
     to_device := fun _ _ _ => Raise (Exn ValueError);
     normalize_dim1 := normalize_dim1 env;
     Config_class := Config_class env |}.

Definition cpu : Device := {| device_type := "cpu" |}.

(** The engine [CLIPSearchEngine()] builds in [env]. *)
Definition engine : Engine :=
  {| config := Config_defaults dir_path;
     model := Bound (Some the_model);
     tokenizer := Some the_tokenizer;
     image_embeddings := Some array;
     image_filenames := Some names;
     image_embeddings_t :=
       Some (normalize_rows
               {| t_dtype := float32; t_dim := 1; t_rows := [[2%R]] |});
     device := cpu |}.

(** The engine [CLIPSearchEngine()] builds in [raw_env]. *)
Definition raw_engine : Engine :=
  {| config := raw_config;
     model := Bound (Some the_model);
     tokenizer := Some the_tokenizer;
     image_embeddings := Some array;
     image_filenames := Some names;
     image_embeddings_t :=
       Some {| t_dtype := float32; t_dim := 1; t_rows := [[2%R]] |};
     device := cpu |}.

(** The engine [CLIPSearchEngine()] builds in [failing_env]. *)
Definition failing_engine : Engine :=
  {| config := Config_defaults dir_path;
     model := Bound (Some failing_model);
     tokenizer := Some the_tokenizer;
     image_embeddings := Some array;
     image_filenames := Some names;
     image_embeddings_t :=
       Some (normalize_rows
               {| t_dtype := float32; t_dim := 1; t_rows := [[2%R]] |});
     device := cpu |}.

Definition failing_world : World := {| self := failing_engine; calls := [] |}.

Definition world : World := {| self := engine; calls := [] |}.

Definition raw_world : World := {| self := raw_engine; calls := [] |}.

Definition query : pyval := PyStr (pystr_of_string "a red car").

(** The score of [a.jpg] for any query, with and without normalised rows. *)
Definition score : R := dot (F_normalize [2%R]) (F_normalize [1%R]).

Definition raw_score : R := dot [2%R] (F_normalize [1%R]).

(** The calls one successful [search] makes. *)
Definition search_calls (k : Z) : list event :=
  [EvTokenize [query]; EvEncodeText [[49406; 49407]%Z];
   EvNormalize; EvMatmul; EvTopk (PyInt k)].

End Demo.

From Stdlib Require Import Permutation.

(* ====================================================================== *)
(** ** A snapshot with two images *)
(* ====================================================================== *)

Module Demo2.

(** [a.jpg] with the embedding [(2)] and [b.jpg] with the embedding [(1)];
    the rows are used as they are ([NORMALIZE_EMBEDDINGS] off). *)
Definition array : ndarray := {| nd_dim := 1; nd_rows := [[2%R]; [1%R]] |}.

Definition names : list pystr :=
  [pystr_of_string "a.jpg"; pystr_of_string "b.jpg"].

Definition dir : snapshot_dir :=
  {| image_embeddings_npy :=
       Some {| load_mmap := Ret array; load_plain := Ret array |};
     image_filenames_npy := Some {| load_pickle := Ret names |} |}.

Definition env : Env := Demo.env_with Demo.raw_config dir (Ret Demo.the_model).

(** The engine [CLIPSearchEngine()] builds in [env]. *)
Definition engine : Engine :=
  {| config := Demo.raw_config;
     model := Bound (Some Demo.the_model);
     tokenizer := Some Demo.the_tokenizer;
     image_embeddings := Some array;
     image_filenames := Some names;
     image_embeddings_t :=
       Some {| t_dtype := float32; t_dim := 1; t_rows := [[2%R]; [1%R]] |};
     device := Demo.cpu |}.

Definition world : World := {| self := engine; calls := [] |}.

(** The scores of the two images for any query. *)
Definition score_a : R := dot [2%R] (F_normalize [1%R]).

Definition score_b : R := dot [1%R] (F_normalize [1%R]).

End Demo2.

(* ====================================================================== *)
(** ** The module-level engine of [search.py] *)
(* ====================================================================== *)

(** The module variable [_engine], and the calls made so far through it. *)
Record Globals : Type := {
  _engine : option Engine;
  trace : list event
}.

(** [get_engine()]: the stored engine, or a new [CLIPSearchEngine()] that
    is stored before it is returned. *)
Definition get_engine (env : Env) (g : Globals) : res Engine * Globals :=
  match _engine g with
  | None =>
      match __init__ env None with
      | Ret e => (Ret e, {| _engine := Some e; trace := trace g |})
      | Raise x => (Raise x, g)
      end
  | Some e => (Ret e, g)
  end.

(** [search_images(query, top_k)]: [get_engine().search(query, top_k)].
    The engine object is shared with [_engine]. *)
Definition search_images (env : Env) (query top_k : pyval) (g : Globals)
  : res (list (pystr * R)) * Globals :=
  match get_engine env g with
  | (Raise x, g') => (Raise x, g')
  | (Ret e, g') =>
      match search env query top_k {| self := e; calls := trace g' |} with
      | (r, w) => (r, {| _engine := Some (self w); trace := calls w |})
      end
  end.

(** [sanity_check()] of the command-line entry: 1 when a file is missing,
    2 when the counts differ, 0 when they agree, 3 when loading raises. *)
Definition sanity_check (env : Env) : res Z :=
  let cfg := Config_class env in
  let base := EMBEDDINGS_DIR cfg in
  let present :=
    match fs env base with
    | None => false
    | Some d =>
        match image_embeddings_npy d, image_filenames_npy d with
        | Some _, Some _ => true
        | _, _ => false
        end
    end in
  if negb present then Ret 1%Z
  else
    let body :=
      match fs env base with
      | None => Raise (Exn FileNotFoundError)
      | Some d =>
          match image_embeddings_npy d with
          | None => Raise (Exn FileNotFoundError)
          | Some f =>
              match load_mmap f with
              | Raise e => Raise e
              | Ret emb =>
                  match np_load_filenames env base with
                  | Raise e => Raise e
                  | Ret fns =>
                      if Nat.eqb (List.length (nd_rows emb)) (List.length fns)
                      then Ret 0%Z else Ret 2%Z
                  end
              end
          end
      end in
    match body with
    | Ret code => Ret code
    | Raise e => if isinstance_exn e Exception then Ret 3%Z else Raise e
    end.

(** The tensor [_initialize] stores for the loaded array. *)
Definition stored_tensor (cfg : Config) (dev : Device) (arr : ndarray)
  : Tensor :=
  if NORMALIZE_EMBEDDINGS cfg then normalize_rows (tensor_of cfg dev arr)
  else tensor_of cfg dev arr.

(** A string of whitespace characters only. *)
Definition all_space (s : pystr) : Prop :=
  Forall (fun c => isspace c = true) s.

(** The environment in which [open_clip.get_tokenizer] behaves as [f]. *)
Definition with_get_tokenizer (f : string -> res Tokenizer) (env : Env) : Env :=
  {| fs := fs env;
     torch_device := torch_device env;
     cuda_is_available := cuda_is_available env;
     create_model_and_transforms := create_model_and_transforms env;
     get_tokenizer := f;
     open_clip_tokenize := open_clip_tokenize env;
     to_device := to_device env;
     normalize_dim1 := normalize_dim1 env;
     Config_class := Config_class env |}.

(* ====================================================================== *)
(** ** The preview grid of [interactive_search] *)
(* ====================================================================== *)

(** One thumbnail of the grid: the image is pasted with its top-left corner
    at [(cell_x, cell_y)], and its label is drawn in the rectangle
    [(cell_x, cell_y + thumb, cell_x + thumb, cell_y + thumb + 24)]. *)
Record Cell : Type := {
  cell_x : Z;
  cell_y : Z;
  cell_label : pystr * R
}.

Record Grid : Type := {
  grid_w : Z;
  grid_h : Z;
  grid_cells : list Cell
}.

(** What a call of [_preview_grid] comes to: it returns at once, it raises
    [RuntimeError], [ZeroDivisionError] or the [ValueError] of a canvas of
    negative size, or it composes the grid and hands it to [grid.save]. *)
Inductive preview : Type :=
| NothingToPreview
| NoPreviewableImages
| DivisionByZero
| NegativeSize
| GridSaved (g : Grid).

(** [enumerate(xs)] with Python integers. *)
Fixpoint enumerate_from {A : Type} (i : Z) (xs : list A) : list (Z * A) :=
  match xs with
  | [] => []
  | x :: xs' => (i, x) :: enumerate_from (i + 1) xs'
  end.

(** The results whose image file exists and opens; the others are skipped. *)
Definition previewable (loads : pystr -> bool) (sel : list (pystr * R))
  : list (pystr * R) :=
  filter (fun p => loads (fst p)) sel.

(** [_preview_grid(results, cols, thumb)].  [loads fname] tells whether the
    image of [fname] exists and can be opened as a thumbnail.  The canvas
    is created with the size [(grid_w, grid_h)], which the imaging library
    refuses when one of the two is negative; the label of a cell is kept as
    the pair it is formatted from. *)
Definition _preview_grid (loads : pystr -> bool) (results : list (pystr * R))
           (cols thumb : Z) : preview :=
  let sel :=
    firstn (Z.to_nat (Z.max 1 (Z.min (len results) (cols * 2)))) results in
  match sel with
  | [] => NothingToPreview
  | _ :: _ =>
      let images := previewable loads sel in
      match images with
      | [] => NoPreviewableImages
      | _ :: _ =>
          if (cols =? 0)%Z then DivisionByZero
          else
            let rows := ((len images + cols - 1) / cols)%Z in
            if ((cols * thumb <? 0) || (rows * (thumb + 24) <? 0))%Z
            then NegativeSize
            else
            GridSaved
              {| grid_w := (cols * thumb)%Z;
                 grid_h := (rows * (thumb + 24))%Z;
                 grid_cells :=
                   map (fun ix =>
                          let r := (fst ix / cols)%Z in
                          let c := (fst ix mod cols)%Z in
                          {| cell_x := (c * thumb)%Z;
                             cell_y := (r * (thumb + 24))%Z;
                             cell_label := snd ix |})
                       (enumerate_from 0 images) |}
      end
  end.

(* ====================================================================== *)
(** ** The search endpoint of [api.py] *)
(* ====================================================================== *)

Module Api.

(** A request that passed the schema: [query] is a string and [top_k] an
    integer or absent. *)
Record SearchRequest : Type := {
  query : pystr;
  top_k : option Z
}.

(** The [Field] constraints of [SearchRequest]. *)
Definition SearchRequest_valid (request : SearchRequest) : bool :=
  ((2 <=? len (query request)) && (len (query request) <=? 512))%Z
  && match top_k request with
     | None => true
     | Some k => ((1 <=? k) && (k <=? 100))%Z
     end.

Record SearchResult : Type := {
  filename : pystr;
  similarity : R
}.

Record SearchResponse : Type := {
  response_query : pystr;
  total_results : Z;
  results : list SearchResult
}.

(** [SearchResult(filename=..., similarity=...)]: the schema rejects a
    similarity outside [-1, 1] with a validation error, a [ValueError]. *)
Definition make_SearchResult (fname : pystr) (score : R) : res SearchResult :=
  if Rle_dec (-1) score then
    if Rle_dec score 1
    then Ret {| filename := fname; similarity := score |}
    else Raise (Exn ValueError)
  else Raise (Exn ValueError).

Fixpoint make_results (rs : list (pystr * R)) : res (list SearchResult) :=
  match rs with
  | [] => Ret []
  | (fname, score) :: rest =>
      match make_SearchResult fname score with
      | Raise e => Raise e
      | Ret r =>
          match make_results rest with
          | Raise e => Raise e
          | Ret l => Ret (r :: l)
          end
      end
  end.

(** What a call of the endpoint gives: a response, an [HTTPException] with
    its status code, or another exception that leaves the function. *)
Inductive outcome : Type :=
| Response (r : SearchResponse)
| HTTPException (status_code : Z)
| Propagates (e : exn).

(** The module variable [search_engine], and the calls made through it. *)
Record App : Type := {
  search_engine : option Engine;
  app_calls : list event
}.

Definition top_k_value (k : option Z) : pyval :=
  match k with
  | None => PyNone
  | Some z => PyInt z
  end.

(** The [except] clauses of the endpoint, in their order. *)
Definition on_exception (e : exn) : outcome :=
  if isinstance_exn e InvalidQueryError then HTTPException 400
  else if isinstance_exn e SearchError then HTTPException 500
  else Propagates e.

(** [POST /search] *)
Definition search (env : Env) (request : SearchRequest) (app : App)
  : outcome * App :=
  match search_engine app with
  | None => (HTTPException 503, app)
  | Some e =>
      match CLIPSearchEngine.search env (PyStr (query request))
              (top_k_value (top_k request))
              {| self := e; calls := app_calls app |} with
      | (r, w) =>
          let app' := {| search_engine := Some (self w);
                         app_calls := calls w |} in
          match r with
          | Raise x => (on_exception x, app')
          | Ret found =>
              match make_results found with
              | Raise x => (on_exception x, app')
              | Ret items =>
                  (Response {| response_query := query request;
                               total_results := len found;
                               results := items |}, app')
              end
          end
      end
  end.

End Api.

(* ====================================================================== *)
(** ** The arithmetic of the scores in binary32 *)
(* ====================================================================== *)

(** With [DTYPE] "auto" on a CPU the stored embeddings and the query
    features are [torch.float32] tensors: every sum, product, quotient and
    square root is rounded to the nearest binary32 number, ties to even. *)
Module Float32.

Definition prec : Z := 24.

Definition emax : Z := 128.

(** The binary32 number of an integer. *)
Definition of_Z (z : Z) : spec_float := binary_normalize prec emax z 0 false.

Definition add : spec_float -> spec_float -> spec_float := SFadd prec emax.

Definition mul : spec_float -> spec_float -> spec_float := SFmul prec emax.

Definition div : spec_float -> spec_float -> spec_float := SFdiv prec emax.

Definition sqrt : spec_float -> spec_float := SFsqrt prec emax.

(** The [eps] of [F.normalize], 1e-12, as a binary32 number. *)
Definition eps : spec_float := S754_finite false 9223372 (-63).

(** Inner product, the products added up from the left. *)
Definition dot (a b : list spec_float) : spec_float :=
  fold_left add (map (fun p => mul (fst p) (snd p)) (combine a b))
    (S754_zero false).

(** The same, added up from the right. *)
Definition dot_from_right (a b : list spec_float) : spec_float :=
  fold_right add (S754_zero false)
    (map (fun p => mul (fst p) (snd p)) (combine a b)).

Definition clamp_min (x lo : spec_float) : spec_float :=
  if SFltb x lo then lo else x.

(** [F.normalize(v, p=2)] on one vector: [v / max(||v||, eps)]. *)
Definition F_normalize (v : list spec_float) : list spec_float :=
  let n := clamp_min (sqrt (dot v v)) eps in
  map (fun x => div x n) v.

(** The similarities [search] computes for the query features [feat] on an
    engine constructed from the embedding rows [rows] with
    [NORMALIZE_EMBEDDINGS] on: [_initialize] normalises the rows, [search]
    normalises the features and multiplies. *)
Definition similarities (rows : list (list spec_float))
           (feat : list spec_float) : list spec_float :=
  let emb_t := map F_normalize rows in
  let q := F_normalize feat in
  map (fun r => dot r q) emb_t.

(** The embedding (1, 1, 4). *)
Definition row : list spec_float := [of_Z 1; of_Z 1; of_Z 4].

(** The number [1 + 2^-23], the binary32 successor of 1. *)
Definition above_one : spec_float := S754_finite false 8388609 (-23).

End Float32.

(* ====================================================================== *)
(** ** Facts about the exception hierarchy *)
(* ====================================================================== *)

Lemma issubclass_refl (c : exc_class) : issubclass c c = true.
Proof. destruct c; reflexivity. Qed.

Lemma issubclass_trans (a b c : exc_class) :
  issubclass a b = true -> issubclass b c = true -> issubclass a c = true.
Proof. destruct a, b, c; simpl; intros; try reflexivity; discriminate. Qed.

Lemma search_errors_are_exceptions (c : exc_class) :
  issubclass c SearchError = true -> issubclass c Exception = true.
Proof. intro H. apply issubclass_trans with SearchError; [exact H | reflexivity]. Qed.

(* ====================================================================== *)
(** ** Facts about top-k selection *)
(* ====================================================================== *)

Lemma firstn_incl (B : Type) (n : nat) (l : list B) (x : B) :
  In x (firstn n l) -> In x l.
Proof.
  revert n. induction l as [|y l IH]; intros [|n]; simpl; try tauto.
  intros [H|H]; [left; exact H | right; apply (IH n H)].
Qed.

Section TopKFacts.

Variable A : Type.
Variable ltb : A -> A -> bool.

Hypothesis ltb_asym : forall a b, ltb a b = true -> ltb b a = false.
Hypothesis ltb_neg_trans :
  forall a b c, ltb a b = false -> ltb b c = false -> ltb a c = false.

Lemma insert_desc_In (x y : nat * A) (l : list (nat * A)) :
  In y (insert_desc ltb x l) <-> y = x \/ In y l.
Proof.
  induction l as [|z l IH]; simpl.
  - split; intros [H|H]; auto; contradiction.
  - destruct (ltb (snd x) (snd z)); simpl.
    + rewrite IH. intuition auto.
    + intuition auto.
Qed.

Lemma insert_desc_length (x : nat * A) (l : list (nat * A)) :
  List.length (insert_desc ltb x l) = S (List.length l).
Proof.
  induction l as [|z l IH]; simpl; [reflexivity|].
  destruct (ltb (snd x) (snd z)); simpl; [rewrite IH|]; reflexivity.
Qed.

Lemma sort_desc_In (y : nat * A) (l : list (nat * A)) :
  In y (sort_desc ltb l) <-> In y l.
Proof.
  induction l as [|x l IH]; simpl; [tauto|].
  rewrite insert_desc_In, IH. intuition auto.
Qed.

Lemma sort_desc_length (l : list (nat * A)) :
  List.length (sort_desc ltb l) = List.length l.
Proof.
  induction l as [|x l IH]; simpl; [reflexivity|].
  rewrite insert_desc_length, IH. reflexivity.
Qed.

Lemma insert_desc_sorted (x : nat * A) (l : list (nat * A)) :
  StronglySorted (not_below ltb) l -> StronglySorted (not_below ltb) (insert_desc ltb x l).
Proof.
  induction 1 as [|z l Hs IH Hz]; simpl.
  - constructor; constructor.
  - destruct (ltb (snd x) (snd z)) eqn:E.
    + constructor; [exact IH|].
      rewrite Forall_forall in *. intros y Hy.
      apply insert_desc_In in Hy. destruct Hy as [->|Hy].
      * unfold not_below. apply ltb_asym. exact E.
      * apply Hz. exact Hy.
    + constructor.
      * constructor; assumption.
      * constructor; [exact E|].
        rewrite Forall_forall in *. intros y Hy.
        unfold not_below in *. apply ltb_neg_trans with (snd z); auto.
Qed.

Lemma sort_desc_sorted (l : list (nat * A)) :
  StronglySorted (not_below ltb) (sort_desc ltb l).
Proof.
  induction l as [|x l IH]; simpl.
  - constructor.
  - apply insert_desc_sorted. exact IH.
Qed.

Lemma firstn_sorted (R : nat * A -> nat * A -> Prop) (n : nat) (l : list (nat * A)) :
  StronglySorted R l -> StronglySorted R (firstn n l).
Proof.
  intro H. revert n.
  induction H as [|z l Hs IH Hz]; intros [|n]; simpl; try constructor.
  - apply IH.
  - rewrite Forall_forall in *. intros y Hy. apply Hz.
    eapply firstn_incl; eassumption.
Qed.

Lemma enumerate_spec (xs : list A) (i : nat) (a : A) :
  In (i, a) (enumerate xs) -> nth_error xs i = Some a.
Proof.
  unfold enumerate.
  assert (G : forall (l : list A) (s : nat),
             In (i, a) (combine (seq s (List.length l)) l) ->
             s <= i /\ nth_error l (i - s) = Some a).
  { induction l as [|x l IH]; simpl; intros s H; [contradiction|].
    destruct H as [H|H].
    - inversion H; subst. rewrite Nat.sub_diag. split; [lia|reflexivity].
    - apply IH in H. destruct H as [Hle Hn]. split; [lia|].
      replace (i - s) with (S (i - S s)) by lia. exact Hn. }
  intro H. apply G in H. destruct H as [_ H].
  rewrite Nat.sub_0_r in H. exact H.
Qed.

Lemma enumerate_length (xs : list A) :
  List.length (enumerate xs) = List.length xs.
Proof.
  unfold enumerate. rewrite length_combine, length_seq. apply Nat.min_id.
Qed.

(** What a successful top-k call returns. *)
Lemma topk_spec (xs : list A) (k : Z) (scores : list A) (idx : list nat) :
  topk ltb xs k = Some (scores, idx) ->
  (0 <= k <= len xs)%Z /\
  List.length scores = Z.to_nat k /\
  List.length idx = Z.to_nat k /\
  StronglySorted (fun a b => ltb a b = false) scores /\
  (forall i a, In (i, a) (combine idx scores) -> nth_error xs i = Some a).
Proof.
  unfold topk.
  destruct ((0 <=? k)%Z && (k <=? len xs)%Z) eqn:E; [|discriminate].
  apply andb_prop in E. destruct E as [E1 E2].
  apply Z.leb_le in E1. apply Z.leb_le in E2.
  intro H. inversion H; subst; clear H.
  set (top := firstn (Z.to_nat k) (sort_desc ltb (enumerate xs))).
  assert (Hlen : List.length top = Z.to_nat k).
  { unfold top. rewrite length_firstn, sort_desc_length, enumerate_length.
    unfold len in E2. lia. }
  split; [lia|].
  split; [rewrite length_map; exact Hlen|].
  split; [rewrite length_map; exact Hlen|].
  split.
  - assert (Hs : StronglySorted (not_below ltb) top).
    { unfold top. apply firstn_sorted. apply sort_desc_sorted. }
    clearbody top. clear Hlen.
    induction Hs as [|z l Hs IH Hz]; simpl; constructor; [exact IH|].
    rewrite Forall_forall in *. intros b Hb.
    apply in_map_iff in Hb. destruct Hb as [y [<- Hy]].
    apply Hz. exact Hy.
  - intros i a Hin.
    assert (Hc : combine (map fst top) (map snd top) = top).
    { clear. induction top as [|[j b] t IH]; simpl; [reflexivity|].
      rewrite IH. reflexivity. }
    rewrite Hc in Hin. unfold top in Hin.
    apply firstn_incl in Hin. rewrite sort_desc_In in Hin.
    apply enumerate_spec. exact Hin.
Qed.

End TopKFacts.

(* ====================================================================== *)
(** ** Facts about the numeric primitives *)
(* ====================================================================== *)

Section RealFacts.

Local Open Scope R_scope.

Lemma Rltb_true_iff (a b : R) : Rltb a b = true <-> a < b.
Proof. unfold Rltb. destruct (Rlt_dec a b); split; intro; auto; discriminate. Qed.

Lemma Rltb_false_iff (a b : R) : Rltb a b = false <-> a >= b.
Proof.
  unfold Rltb. destruct (Rlt_dec a b); split; intro; auto; try discriminate; lra.
Qed.

Lemma Rltb_asym (a b : R) : Rltb a b = true -> Rltb b a = false.
Proof. rewrite Rltb_true_iff, Rltb_false_iff. lra. Qed.

Lemma Rltb_neg_trans (a b c : R) :
  Rltb a b = false -> Rltb b c = false -> Rltb a c = false.
Proof. rewrite !Rltb_false_iff. lra. Qed.

Lemma dot_self_nonneg (v : list R) : 0 <= dot v v.
Proof. induction v as [|x v IH]; simpl; [lra | nra]. Qed.

Lemma cauchy_schwarz (a b : list R) :
  dot a b * dot a b <= dot a a * dot b b.
Proof.
  revert b. induction a as [|x a IH]; intros [|y b]; simpl; try lra.
  specialize (IH b).
  pose proof (dot_self_nonneg a) as Ha.
  pose proof (dot_self_nonneg b) as Hb.
  set (S := dot a b) in *. set (P := dot a a) in *. set (Q := dot b b) in *.
  destruct (Req_dec P 0) as [HP|HP].
  - assert (S = 0) by nra. nra.
  - assert (0 < P) by lra.
    assert (0 <= P * (x * x * Q + P * (y * y) - 2 * (x * y * S))).
    { pose proof (Rle_0_sqr (x * S - P * y)) as Hsq. unfold Rsqr in Hsq. nra. }
    nra.
Qed.

Lemma norm2_nonneg (v : list R) : 0 <= norm2 v.
Proof. apply sqrt_pos. Qed.

Lemma dot_abs_le (a b : list R) : Rabs (dot a b) <= norm2 a * norm2 b.
Proof.
  unfold norm2. rewrite <- sqrt_mult by apply dot_self_nonneg.
  rewrite <- sqrt_Rsqr_abs. apply sqrt_le_1_alt.
  unfold Rsqr. apply cauchy_schwarz.
Qed.

Lemma dot_scale (m : R) (v : list R) :
  dot (map (fun x => x / m) v) (map (fun x => x / m) v)
  = dot v v * (/ m * / m).
Proof.
  induction v as [|x v IH]; simpl; [lra|]. rewrite IH. unfold Rdiv. ring.
Qed.

Lemma eps_pos : 0 < eps.
Proof. unfold eps. apply Rinv_0_lt_compat. lra. Qed.

(** Without rounding, a normalised vector has length at most one (exactly
    one unless the input is shorter than [eps]). *)
Lemma norm2_F_normalize (v : list R) : norm2 (F_normalize v) <= 1.
Proof.
  unfold F_normalize, norm2 at 1. rewrite dot_scale.
  set (m := Rmax (norm2 v) eps).
  assert (Hm : 0 < m).
  { unfold m. pose proof eps_pos. pose proof (Rmax_r (norm2 v) eps). lra. }
  assert (Hv : norm2 v <= m) by (unfold m; apply Rmax_l).
  rewrite <- sqrt_1. apply sqrt_le_1_alt.
  assert (Hd : dot v v = norm2 v * norm2 v).
  { unfold norm2. rewrite sqrt_sqrt; [reflexivity | apply dot_self_nonneg]. }
  rewrite Hd.
  pose proof (norm2_nonneg v) as Hn.
  assert (Hq : 0 <= norm2 v * / m <= 1).
  { split.
    - apply Rmult_le_pos; [exact Hn | left; apply Rinv_0_lt_compat; exact Hm].
    - apply Rmult_le_reg_r with m; [exact Hm|].
      rewrite Rmult_assoc, Rinv_l by lra. lra. }
  replace (norm2 v * norm2 v * (/ m * / m))
    with ((norm2 v * / m) * (norm2 v * / m)) by ring.
  nra.
Qed.

(** Without rounding, the inner product of two vectors of length at most
    one lies in [-1, 1].  The engine computes in binary16 or binary32,
    where the bound is kept up to rounding only. *)
Lemma score_bounded (r q : list R) :
  norm2 r <= 1 -> norm2 q <= 1 -> -1 <= dot r q <= 1.
Proof.
  intros Hr Hq.
  pose proof (dot_abs_le r q) as H.
  pose proof (norm2_nonneg r). pose proof (norm2_nonneg q).
  assert (Hb : Rabs (dot r q) <= 1) by nra.
  unfold Rabs in Hb. destruct (Rcase_abs (dot r q)); lra.
Qed.

End RealFacts.

(* ====================================================================== *)
(** ** Methods that only read the engine *)
(* ====================================================================== *)

Lemma readonly_ret (A : Type) (a : A) : readonly (ret a).
Proof. intro s. exists (Ret a), []. intro tr. unfold ret. rewrite app_nil_r. reflexivity. Qed.

Lemma readonly_raise (A : Type) (e : exn) : readonly (@raise A e).
Proof. intro s. exists (Raise e), []. intro tr. unfold raise. rewrite app_nil_r. reflexivity. Qed.

Lemma readonly_lift (A : Type) (r : res A) : readonly (lift r).
Proof. intro s. exists r, []. intro tr. unfold lift. rewrite app_nil_r. reflexivity. Qed.

Lemma readonly_gets (A : Type) (f : Engine -> A) : readonly (gets f).
Proof. intro s. exists (Ret (f s)), []. intro tr. unfold gets. simpl. rewrite app_nil_r. reflexivity. Qed.

Lemma readonly_log (ev : event) : readonly (log ev).
Proof. intro s. exists (Ret tt), [ev]. intro tr. reflexivity. Qed.

Lemma readonly_getattr_model : readonly getattr_model.
Proof.
  intro s. unfold getattr_model. simpl.
  destruct (model s) as [|v].
  - exists (Raise (Exn AttributeError)), []. intro tr. rewrite app_nil_r. reflexivity.
  - exists (Ret v), []. intro tr. rewrite app_nil_r. reflexivity.
Qed.

Lemma readonly_bind (A B : Type) (m : Py A) (k : A -> Py B) :
  readonly m -> (forall a, readonly (k a)) -> readonly (bind m k).
Proof.
  intros Hm Hk s. destruct (Hm s) as [r [evs Hr]].
  destruct r as [a|e].
  - destruct (Hk a s) as [r2 [evs2 Hr2]].
    exists r2, (evs ++ evs2). intro tr. unfold bind.
    rewrite Hr, Hr2, app_assoc. reflexivity.
  - exists (Raise e), evs. intro tr. unfold bind. rewrite Hr. reflexivity.
Qed.

Lemma readonly_try_except (A : Type) (body : Py A) (handler : exn -> Py A) :
  readonly body -> (forall e, readonly (handler e)) ->
  readonly (try_except body handler).
Proof.
  intros Hm Hk s. destruct (Hm s) as [r [evs Hr]].
  destruct r as [a|e].
  - exists (Ret a), evs. intro tr. unfold try_except. rewrite Hr. reflexivity.
  - destruct (isinstance_exn e Exception) eqn:E.
    + destruct (Hk e s) as [r2 [evs2 Hr2]].
      exists r2, (evs ++ evs2). intro tr. unfold try_except.
      rewrite Hr, E, Hr2, app_assoc. reflexivity.
    + exists (Raise e), evs. intro tr. unfold try_except.
      rewrite Hr, E. reflexivity.
Qed.

Ltac readonly_step :=
  first
    [ apply readonly_ret | apply readonly_raise | apply readonly_lift
    | apply readonly_gets | apply readonly_log | apply readonly_getattr_model
    | apply readonly_try_except; [|intro]
    | apply readonly_bind; [|intro]
    | match goal with
      | |- readonly (match ?x with _ => _ end) => destruct x
      | |- readonly (if ?b then _ else _) => destruct b
      end ].

Lemma readonly_validate_query (query : pyval) : readonly (_validate_query query).
Proof. unfold _validate_query. repeat readonly_step. Qed.

Lemma readonly_num_images : readonly num_images.
Proof. unfold num_images. repeat readonly_step. Qed.

Lemma readonly_search_body (env : Env) (query top_k : pyval) :
  readonly (search_body env query top_k).
Proof. unfold search_body. repeat readonly_step. Qed.

Lemma readonly_search (env : Env) (query top_k : pyval) :
  readonly (search env query top_k).
Proof.
  unfold search.
  apply readonly_bind; [apply readonly_gets | intro cfg].
  apply readonly_bind; [apply readonly_validate_query | intros _].
  match goal with |- readonly (if ?b then _ else _) => destruct b end.
  - apply readonly_raise.
  - apply readonly_bind; [apply readonly_num_images | intro n].
    apply readonly_try_except; [apply readonly_search_body | intro e].
    apply readonly_raise.
Qed.

(** Running a read-only computation: the attributes are kept, and a second
    run from any state with the same attributes gives the same result. *)
Lemma readonly_run (A : Type) (m : Py A) (w : World) :
  readonly m ->
  self (snd (m w)) = self w /\
  forall w2, self w2 = self w -> fst (m w2) = fst (m w).
Proof.
  intro H. destruct (H (self w)) as [r [evs Hr]].
  destruct w as [s tr]. simpl in *. rewrite Hr. simpl. split; [reflexivity|].
  intros [s2 tr2] Hs. simpl in Hs. subst s2. rewrite Hr. reflexivity.
Qed.

(* ====================================================================== *)
(** ** Running [search] *)
(* ====================================================================== *)

Lemma num_images_run (w : World) :
  num_images w = (Ret (num_images_of (self w)), w).
Proof.
  unfold num_images, num_images_of, bind, gets, ret.
  destruct (image_filenames (self w)); reflexivity.
Qed.

Lemma validate_query_run (query : pyval) (w : World) :
  _validate_query query w =
  (if query_accepted (config (self w)) query
   then Ret tt else Raise (Exn InvalidQueryError), w).
Proof.
  unfold _validate_query, query_accepted.
  destruct query; try reflexivity.
  unfold bind, gets, raise, ret.
  destruct (len (strip s) <? MIN_QUERY_LENGTH (config (self w)))%Z; simpl;
    [reflexivity|].
  destruct (MAX_QUERY_LENGTH (config (self w)) <? len (strip s))%Z; reflexivity.
Qed.

(** [search] is its two input checks followed by the guarded [try] block,
    which is entered with the clamped [top_k]. *)
Lemma search_run (env : Env) (query top_k : pyval) (w : World) :
  search env query top_k w =
  if query_accepted (config (self w)) query then
    if top_k_rejected (resolve_top_k (config (self w)) top_k)
    then (Raise (Exn InvalidQueryError), w)
    else
      try_except
        (search_body env query
           (py_min (resolve_top_k (config (self w)) top_k)
                   (num_images_of (self w))))
        (fun e => raise (ExnFrom SearchError e)) w
  else (Raise (Exn InvalidQueryError), w).
Proof.
  unfold search. unfold bind at 1. unfold gets at 1.
  unfold bind at 1. rewrite validate_query_run.
  destruct (query_accepted (config (self w)) query); [|reflexivity].
  fold (top_k_rejected (resolve_top_k (config (self w)) top_k)).
  destruct (top_k_rejected (resolve_top_k (config (self w)) top_k));
    [reflexivity|].
  unfold bind. rewrite num_images_run. reflexivity.
Qed.

Lemma build_results_spec (fns : option (list pystr)) (pairs : list (nat * R))
      (results : list (pystr * R)) :
  build_results fns pairs = Ret results ->
  map snd results = map snd pairs /\
  forall id s, In (id, s) results ->
    exists l i, fns = Some l /\ nth_error l i = Some id /\ In (i, s) pairs.
Proof.
  revert results. induction pairs as [|[i s] pairs IH]; simpl; intros results H.
  - inversion H; subst. split; [reflexivity|]. intros ? ? [].
  - destruct fns as [l|]; [|discriminate].
    destruct (nth_error l i) as [f|] eqn:En; [|discriminate].
    destruct (build_results (Some l) pairs) as [r|e]; [|discriminate].
    inversion H; subst; clear H.
    destruct (IH r eq_refl) as [Hs Hin]. simpl. split; [f_equal; exact Hs|].
    intros id s0 [Heq|Hr].
    + inversion Heq; subst. exists l, i. auto.
    + destruct (Hin id s0 Hr) as [l' [j [Hl [Hn Hp]]]].
      exists l', j. auto.
Qed.

(** What a normal return of the [try] block of [search] went through. *)
Lemma search_body_Ret (env : Env) (query top_k : pyval) (w w' : World)
      (results : list (pystr * R)) :
  search_body env query top_k w = (Ret results, w') ->
  exists t feat z sims scores idx,
    image_embeddings_t (self w) = Some t /\
    matvec t (F_normalize feat) = Ret sims /\
    top_k = PyInt z /\
    topk Rltb sims z = Some (scores, idx) /\
    build_results (image_filenames (self w)) (combine idx scores) = Ret results.
Proof.
  unfold search_body, bind, gets, log, lift, getattr_model, raise. simpl.
  destruct (match tokenizer (self w) with
            | Some t => t
            | None => open_clip_tokenize env
            end [query]) as [toks|]; [|discriminate].
  destruct (model (self w)) as [|[m|]]; try discriminate. simpl.
  destruct (encode_text m toks) as [feats|]; [|discriminate]. simpl.
  destruct (image_embeddings_t (self w)) as [t|]; [|discriminate]. simpl.
  destruct feats as [|feat feats]; [discriminate|]. simpl.
  destruct (matvec t (F_normalize feat)) as [sims|] eqn:Em; [|discriminate].
  simpl. unfold torch_topk.
  destruct top_k as [| | z | | |]; try discriminate.
  destruct (topk Rltb sims z) as [[scores idx]|] eqn:Et; [|discriminate].
  simpl. intro H.
  destruct (build_results (image_filenames (self w)) (combine idx scores))
    as [r|] eqn:Eb; [|discriminate].
  inversion H; subst.
  exists t, feat, z, sims, scores, idx. auto.
Qed.

(** What a normal return of [search] went through. *)
Lemma search_Ret (env : Env) (query top_k : pyval) (w w' : World)
      (results : list (pystr * R)) :
  search env query top_k w = (Ret results, w') ->
  query_accepted (config (self w)) query = true /\
  top_k_rejected (resolve_top_k (config (self w)) top_k) = false /\
  search_body env query
    (py_min (resolve_top_k (config (self w)) top_k) (num_images_of (self w))) w
  = (Ret results, w').
Proof.
  rewrite search_run.
  destruct (query_accepted (config (self w)) query); [|discriminate].
  destruct (top_k_rejected (resolve_top_k (config (self w)) top_k));
    [discriminate|].
  unfold try_except.
  destruct (search_body env query _ w) as [[r|e] w1].
  - intro H. inversion H; subst. auto.
  - destruct (isinstance_exn e Exception); discriminate.
Qed.

(* ====================================================================== *)
(** ** Construction *)
(* ====================================================================== *)

Lemma validate_false_iff (env : Env) (cfg : Config) :
  validate env cfg = false <-> required_file_absent env cfg.
Proof.
  unfold validate, required_file_absent.
  destruct (fs env (cls_EMBEDDINGS_DIR cfg)) as [d|]; [|tauto].
  destruct (image_embeddings_npy d), (image_filenames_npy d);
    split; intro H; auto; try discriminate; destruct H; discriminate.
Qed.

(** The outcome of the [try] block of [_initialize] on the attributes
    [__init__] starts from. *)
Lemma initialize_body_cases (env : Env) (cfg : Config) (dev : Device) :
  let w0 := {| self := fresh cfg dev; calls := [] |} in
  (exists w, _initialize_body env cfg w0 = (Ret tt, w) /\
             config (self w) = cfg /\ Ready (self w)) \/
  (exists e w, _initialize_body env cfg w0 = (Raise e, w) /\
     (rows_mismatch env cfg \/ load_fails env cfg \/ model_fails env cfg \/
      tensor_fails env cfg dev \/ isinstance_exn e Exception = false)).
Proof.
  intro w0. unfold _initialize_body, bind, lift, modify, gets, raise, ret.
  unfold rows_mismatch, load_fails, model_fails, tensor_fails.
  destruct (np_load_embeddings env (EMBEDDINGS_DIR cfg)) as [arr|e] eqn:E1.
  2:{ right. exists e, w0. split; [reflexivity|]. right. left. left.
      exists e. reflexivity. }
  destruct (np_load_filenames env (EMBEDDINGS_DIR cfg)) as [names|e] eqn:E2.
  2:{ right. eexists e, _. split; [reflexivity|]. right. left. right.
      exists e. reflexivity. }
  simpl.
  destruct (Nat.eqb (List.length (nd_rows arr)) (List.length names)) eqn:E3; simpl.
  2:{ right. eexists _, _. split; [reflexivity|]. left.
      exists arr, names. apply Nat.eqb_neq in E3. auto. }
  apply Nat.eqb_eq in E3.
  destruct (create_model_and_transforms env (MODEL_NAME cfg) (PRETRAINED cfg)
              (DEVICE cfg)) as [m|e] eqn:E4.
  2:{ right. eexists e, _. split; [reflexivity|]. right. right. left. left.
      exists e. reflexivity. }
  simpl. destruct (eval m) as [[]|e] eqn:E5.
  2:{ right. eexists e, _. split; [reflexivity|]. right. right. left. right.
      exists m, e. auto. }
  simpl.
  destruct (get_tokenizer env (tokenizer_name cfg)) as [tok|e] eqn:E6;
    [| destruct (isinstance_exn e Exception) eqn:E7;
       [| right; eexists e, _; split; [reflexivity|]; tauto ]];
    simpl; fold (tensor_of cfg dev arr);
    (destruct (to_device env arr dev (device_dtype cfg dev)) as [[]|x8] eqn:E8;
     [| right; eexists _, _; split; [reflexivity|];
        right; right; right; left; exists arr; split; [reflexivity|];
        left; rewrite E8; eauto ]);
    (destruct (NORMALIZE_EMBEDDINGS cfg) eqn:E9;
     [ destruct (normalize_dim1 env (tensor_of cfg dev arr)) as [[]|x10] eqn:E10;
       [| right; eexists _, _; split; [reflexivity|];
          right; right; right; left; exists arr; split; [reflexivity|];
          right; rewrite E10; eauto ] |]);
    left; eexists; (split; [reflexivity|]); (split; [reflexivity|]);
    eexists m, _, names, _; unfold tensor_of; simpl;
    repeat (split; [reflexivity|]); unfold normalize_rows; simpl;
    rewrite ?length_map; congruence.
Qed.

Lemma init_Ready (env : Env) (cfg0 : option Config) (e : Engine) :
  __init__ env cfg0 = Ret e -> Ready e /\ config e = config_of env cfg0.
Proof.
  unfold __init__. fold (config_of env cfg0). set (cfg := config_of env cfg0).
  destruct (torch_device env (DEVICE cfg)) as [dev|]; [|discriminate].
  unfold _initialize, bind, gets. simpl.
  destruct (validate env cfg); simpl; [|discriminate].
  unfold try_except.
  destruct (initialize_body_cases env cfg dev) as [[w [Hw [Hc Hr]]]|[x [w [Hw _]]]];
    simpl in Hw; rewrite Hw.
  - intro H. inversion H; subst. auto.
  - destruct (isinstance_exn x Exception); discriminate.
Qed.

(* ====================================================================== *)
(** ** Runs on the small snapshot *)
(* ====================================================================== *)

Example demo_init : __init__ Demo.env None = Ret Demo.engine.
Proof. reflexivity. Qed.

Example demo_raw_init : __init__ Demo.raw_env None = Ret Demo.raw_engine.
Proof. reflexivity. Qed.

Example demo_init_no_model :
  __init__ Demo.env_no_model None
  = Raise (ExnFrom InitializationError (Exn RuntimeError)).
Proof. reflexivity. Qed.

Example demo_init_strings :
  __init__ Demo.env_strings None
  = Raise (ExnFrom InitializationError (Exn ValueError)).
Proof. reflexivity. Qed.

Example demo_init_no_names :
  __init__ Demo.env_no_names None = Raise (Exn InitializationError).
Proof. reflexivity. Qed.

Example demo_init_bad_device :
  __init__ Demo.env (Some
    {| EMBEDDINGS_DIR := Demo.dir_path; cls_EMBEDDINGS_DIR := Demo.dir_path;
       MODEL_NAME := "ViT-B-32"; PRETRAINED := "openai";
       TOKENIZER_NAME := None; DEVICE := "gpu"; DTYPE := "auto";
       NORMALIZE_EMBEDDINGS := true; DEFAULT_TOP_K := 5;
       MIN_QUERY_LENGTH := 2; MAX_QUERY_LENGTH := 512 |})
  = Raise (Exn RuntimeError).
Proof. reflexivity. Qed.

Example topk_on_integers :
  topk Z.ltb [3; 1; 4; 1; 5]%Z 3 = Some ([5; 4; 3]%Z, [4; 2; 0]).
Proof. reflexivity. Qed.

Example topk_on_reals :
  topk Rltb [0; 1; / 2]%R 2 = Some ([1; / 2]%R, [1; 2]).
Proof.
  unfold topk, sort_desc, enumerate. simpl.
  rewrite (proj2 (Rltb_false_iff 1 (/ 2))) by lra. simpl.
  rewrite (proj2 (Rltb_true_iff 0 1)) by lra. simpl.
  rewrite (proj2 (Rltb_true_iff 0 (/ 2))) by lra.
  reflexivity.
Qed.

Example topk_out_of_range : topk Z.ltb [3; 1]%Z 3 = None.
Proof. reflexivity. Qed.

Example strip_example :
  strip (pystr_of_string "  a b  ") = pystr_of_string "a b".
Proof. reflexivity. Qed.

Example demo_search_short_query :
  search Demo.env (PyStr (pystr_of_string " a ")) (PyInt 5) Demo.world
  = (Raise (Exn InvalidQueryError), Demo.world).
Proof. reflexivity. Qed.

Example demo_search :
  search Demo.env Demo.query (PyInt 1) Demo.world
  = (Ret [(pystr_of_string "a.jpg", Demo.score)],
     {| self := Demo.engine; calls := Demo.search_calls 1 |}).
Proof. reflexivity. Qed.

Example demo_search_clamped :
  search Demo.env Demo.query (PyInt 20) Demo.world
  = (Ret [(pystr_of_string "a.jpg", Demo.score)],
     {| self := Demo.engine; calls := Demo.search_calls 1 |}).
Proof. reflexivity. Qed.

Example demo_search_default_top_k :
  search Demo.env Demo.query PyNone Demo.world
  = search Demo.env Demo.query (PyInt 5) Demo.world.
Proof. reflexivity. Qed.

Example demo_failing_init :
  __init__ Demo.failing_env None = Ret Demo.failing_engine.
Proof. reflexivity. Qed.

Example demo_failing_body :
  search_body Demo.failing_env Demo.query (PyInt 1) Demo.failing_world
  = (Raise (Exn RuntimeError),
     {| self := Demo.failing_engine;
        calls := [EvTokenize [Demo.query]; EvEncodeText [[49406; 49407]%Z]] |}).
Proof. reflexivity. Qed.

Example demo_search_after_cleanup :
  fst (search Demo.env Demo.query (PyInt 1)
         (snd (cleanup Demo.env Demo.world)))
  = Raise (ExnFrom SearchError (Exn AttributeError)).
Proof. reflexivity. Qed.

Example demo_raw_search :
  search Demo.raw_env Demo.query (PyInt 1) Demo.raw_world
  = (Ret [(pystr_of_string "a.jpg", Demo.raw_score)],
     {| self := Demo.raw_engine; calls := Demo.search_calls 1 |}).
Proof. reflexivity. Qed.

(* ====================================================================== *)
(** ** Properties of construction *)
(* ====================================================================== *)

(** C1, as stated, fails: with both files present and one row for one
    identifier, construction still raises [InitializationError] when the
    model cannot be loaded. *)
Lemma init_error_without_snapshot_fault :
  ~ (raises_InitializationError (__init__ Demo.env_no_model None) <->
     snapshot_unusable Demo.env_no_model (config_of Demo.env_no_model None)).
Proof.
  intros [H _].
  assert (Hr : raises_InitializationError (__init__ Demo.env_no_model None)).
  { eexists. split; reflexivity. }
  destruct (H Hr) as [Habs | [arr [names [Ha [Hn Hneq]]]]].
  - simpl in Habs. destruct Habs; discriminate.
  - simpl in Ha, Hn. inversion Ha; subst. inversion Hn; subst.
    apply Hneq. reflexivity.
Qed.

(** C1, amended: once the device string is accepted, construction raises
    [InitializationError] whenever a required file is absent or the row
    count differs from the identifiers length; and it raises
    [InitializationError] only then, or when one of the arrays fails to
    load, or when the model fails to load, or when the embeddings are not
    converted to a tensor on the device or its rows are not normalised. *)
Theorem init_raises_InitializationError
        (env : Env) (cfg0 : option Config) (dev : Device) :
  let cfg := config_of env cfg0 in
  torch_device env (DEVICE cfg) = Ret dev ->
  (snapshot_unusable env cfg ->
   raises_InitializationError (__init__ env cfg0)) /\
  (raises_InitializationError (__init__ env cfg0) ->
   snapshot_unusable env cfg \/ load_fails env cfg \/ model_fails env cfg \/
   tensor_fails env cfg dev).
Proof.
  intros cfg Hdev.
  unfold __init__. fold (config_of env cfg0). fold cfg. rewrite Hdev.
  unfold _initialize, bind, gets, raise. simpl.
  destruct (validate env cfg) eqn:Ev; simpl.
  - unfold try_except, snapshot_unusable.
    assert (Hpresent : ~ required_file_absent env cfg).
    { intro Habs. apply validate_false_iff in Habs. congruence. }
    destruct (initialize_body_cases env cfg dev)
      as [[w [Hw [_ _]]] | [e [w [Hw Hcase]]]]; simpl in Hw; rewrite Hw.
    + split.
      * intros [Habs | [arr [names [Ha [Hn Hneq]]]]]; [contradiction|].
        exfalso. revert Hw.
        unfold _initialize_body, bind, lift, modify, raise.
        rewrite Ha, Hn. simpl.
        apply Nat.eqb_neq in Hneq. rewrite Hneq. simpl. discriminate.
      * intros [x [Hx _]]. discriminate.
    + destruct (isinstance_exn e Exception) eqn:Ee.
      * split.
        -- intros _. eexists. split; reflexivity.
        -- intros _. destruct Hcase as [H | [H | [H | [H | H]]]]; auto.
           congruence.
      * split.
        -- intros [Habs | [arr [names [Ha [Hn Hneq]]]]]; [contradiction|].
           exfalso. revert Hw.
           unfold _initialize_body, bind, lift, modify, raise.
           rewrite Ha, Hn. simpl.
           apply Nat.eqb_neq in Hneq. rewrite Hneq. simpl.
           intro Hw. inversion Hw; subst. discriminate.
        -- intros [x [Hx Hc]]. inversion Hx; subst.
           destruct x as [c|c x']; simpl in Hc; subst; discriminate.
  - split.
    + intros _. eexists. split; reflexivity.
    + intros _. left. left. apply validate_false_iff. exact Ev.
Qed.

Lemma init_raises_InitializationError_witness :
  raises_InitializationError (__init__ Demo.env_no_names None) /\
  (let cfg := config_of Demo.env_strings None in
   snapshot_unusable Demo.env_strings cfg \/
   load_fails Demo.env_strings cfg \/
   model_fails Demo.env_strings cfg \/
   tensor_fails Demo.env_strings cfg Demo.cpu).
Proof.
  split.
  - apply (proj1 (@init_raises_InitializationError
                    Demo.env_no_names None Demo.cpu eq_refl)).
    left. simpl. right. reflexivity.
  - apply (proj2 (@init_raises_InitializationError
                    Demo.env_strings None Demo.cpu eq_refl)).
    eexists. split; reflexivity.
Defined.

(* ====================================================================== *)
(** ** Properties of input validation *)
(* ====================================================================== *)

Lemma query_accepted_iff (cfg : Config) (query : pyval) :
  query_accepted cfg query = true <-> valid_query cfg query.
Proof.
  unfold query_accepted, valid_query. split.
  - destruct query; try discriminate. intro H.
    apply andb_prop in H. destruct H as [H1 H2].
    apply negb_true_iff in H1, H2.
    apply Z.ltb_ge in H1. apply Z.ltb_ge in H2.
    exists s. split; [reflexivity | lia].
  - intros [s [-> [H1 H2]]].
    apply andb_true_intro. split; apply negb_true_iff; apply Z.ltb_ge; lia.
Qed.

(** C2: a query that is not a string, or whose stripped length is below
    the minimum (2 by default) or above the maximum (512 by default), makes
    [search] raise [InvalidQueryError]; the engine is left exactly as it
    was, with no call to the tokenizer, the model or the numeric library. *)
Theorem search_rejects_invalid_query :
  (forall d, MIN_QUERY_LENGTH (Config_defaults d) = 2%Z /\
             MAX_QUERY_LENGTH (Config_defaults d) = 512%Z) /\
  forall (env : Env) (w : World) (query top_k : pyval),
    (isinstance_str query = false \/
     exists s, query = PyStr s /\
       (len (strip s) < MIN_QUERY_LENGTH (config (self w)) \/
        len (strip s) > MAX_QUERY_LENGTH (config (self w)))%Z) ->
    search env query top_k w = (Raise (Exn InvalidQueryError), w).
Proof.
  split; [intro d; split; reflexivity|].
  intros env w query top_k H. rewrite search_run.
  destruct (query_accepted (config (self w)) query) eqn:E; [|reflexivity].
  apply query_accepted_iff in E. destruct E as [s [-> Hb]].
  destruct H as [H | [s' [Hs H]]]; [discriminate|].
  inversion Hs; subst. lia.
Qed.

Lemma search_rejects_invalid_query_witness :
  search Demo.env (PyStr (pystr_of_string "a")) (PyInt 5) Demo.world
  = (Raise (Exn InvalidQueryError), Demo.world)
  /\ search Demo.env (PyStr (pystr_of_string "   ")) PyNone Demo.world
     = (Raise (Exn InvalidQueryError), Demo.world)
  /\ search Demo.env (PyInt 42) (PyInt 5) Demo.world
     = (Raise (Exn InvalidQueryError), Demo.world).
Proof.
  split; [|split].
  - apply (proj2 search_rejects_invalid_query). right.
    exists (pystr_of_string "a"). split; [reflexivity | left; reflexivity].
  - apply (proj2 search_rejects_invalid_query). right.
    exists (pystr_of_string "   "). split; [reflexivity | left; reflexivity].
  - apply (proj2 search_rejects_invalid_query). left. reflexivity.
Defined.

(** C3: on a valid query, a [top_k] that is not a positive integer (not an
    [int], or at most 0) makes [search] raise [InvalidQueryError].  The
    check is made on [top_k] as resolved by the method's first statement:
    an omitted [top_k] ([None]) stands for the configured default. *)
Theorem search_rejects_invalid_top_k
        (env : Env) (w : World) (query top_k : pyval) :
  valid_query (config (self w)) query ->
  (isinstance_int (resolve_top_k (config (self w)) top_k) = false \/
   exists z, int_value (resolve_top_k (config (self w)) top_k) = Some z /\
             (z <= 0)%Z) ->
  search env query top_k w = (Raise (Exn InvalidQueryError), w).
Proof.
  intros Hq Hk. rewrite search_run.
  apply query_accepted_iff in Hq. rewrite Hq.
  assert (E : top_k_rejected (resolve_top_k (config (self w)) top_k) = true).
  { unfold top_k_rejected. destruct Hk as [Hk | [z [Hz Hle]]].
    - rewrite Hk. reflexivity.
    - rewrite Hz. apply orb_true_iff. right. apply Z.ltb_lt. lia. }
  rewrite E. reflexivity.
Qed.

Lemma search_rejects_invalid_top_k_witness :
  search Demo.env Demo.query (PyInt 0) Demo.world
  = (Raise (Exn InvalidQueryError), Demo.world)
  /\ search Demo.env Demo.query (PyFloat 2.5) Demo.world
     = (Raise (Exn InvalidQueryError), Demo.world)
  /\ search Demo.env Demo.query (PyStr (pystr_of_string "5")) Demo.world
     = (Raise (Exn InvalidQueryError), Demo.world).
Proof.
  assert (Hq : valid_query (config (self Demo.world)) Demo.query).
  { eexists. split; [reflexivity|]. vm_compute. split; discriminate. }
  split; [|split].
  - apply search_rejects_invalid_top_k; [exact Hq|].
    right. exists 0%Z. split; [reflexivity | lia].
  - apply search_rejects_invalid_top_k; [exact Hq|]. left. reflexivity.
  - apply search_rejects_invalid_top_k; [exact Hq|]. left. reflexivity.
Defined.

(* ====================================================================== *)
(** ** The error taxonomy *)
(* ====================================================================== *)

(** C10: [InvalidQueryError] and [InitializationError] are subclasses of
    [SearchError].  So whatever [search] or the constructor raises with one
    of these classes is an instance of [SearchError]; a [try] whose first
    clause is [except SearchError] sends all three kinds to that clause;
    and the clause order of the callers, subclass first, tells them apart. *)
Theorem validation_and_init_errors_are_SearchErrors :
  issubclass InvalidQueryError SearchError = true /\
  issubclass InitializationError SearchError = true /\
  (forall env query top_k w e w',
     search env query top_k w = (Raise e, w') ->
     exn_class e = InvalidQueryError ->
     isinstance_exn e SearchError = true) /\
  (forall env cfg0 e,
     __init__ env cfg0 = Raise e ->
     exn_class e = InitializationError ->
     isinstance_exn e SearchError = true) /\
  (forall e rest,
     exn_class e = InvalidQueryError \/ exn_class e = InitializationError \/
     exn_class e = SearchError ->
     first_handler (SearchError :: rest) e = Some 0) /\
  (forall e,
     (exn_class e = InvalidQueryError ->
      first_handler interactive_search_handlers e = Some 0) /\
     (exn_class e = InitializationError \/ exn_class e = SearchError ->
      first_handler interactive_search_handlers e = Some 1)) /\
  (forall e,
     (exn_class e = InvalidQueryError ->
      first_handler [InvalidQueryError; InitializationError; SearchError] e
      = Some 0) /\
     (exn_class e = InitializationError ->
      first_handler [InvalidQueryError; InitializationError; SearchError] e
      = Some 1) /\
     (exn_class e = SearchError ->
      first_handler [InvalidQueryError; InitializationError; SearchError] e
      = Some 2)).
Proof.
  split; [reflexivity|]. split; [reflexivity|].
  split; [intros ? ? ? ? e ? _ H; unfold isinstance_exn; rewrite H; reflexivity|].
  split; [intros ? ? e _ H; unfold isinstance_exn; rewrite H; reflexivity|].
  split.
  - intros e rest H. simpl. unfold isinstance_exn.
    destruct H as [-> | [-> | ->]]; reflexivity.
  - split; intro e.
    + split.
      * intro H. simpl. unfold isinstance_exn. rewrite H. reflexivity.
      * intro H. simpl. unfold isinstance_exn.
        destruct H as [-> | ->]; reflexivity.
    + repeat split; intro H; simpl; unfold isinstance_exn; rewrite H;
        reflexivity.
Qed.

Lemma validation_and_init_errors_are_SearchErrors_witness :
  isinstance_exn (Exn InvalidQueryError) SearchError = true
  /\ isinstance_exn (ExnFrom InitializationError (Exn RuntimeError)) SearchError
     = true
  /\ first_handler [SearchError; InvalidQueryError] (Exn InvalidQueryError)
     = Some 0.
Proof.
  destruct validation_and_init_errors_are_SearchErrors
    as [_ [_ [Hs [Hi [Hfirst _]]]]].
  split; [|split].
  - apply (Hs Demo.env (PyInt 42) (PyInt 5) Demo.world _ Demo.world);
      reflexivity.
  - apply (Hi Demo.env_no_model None); reflexivity.
  - apply Hfirst. left. reflexivity.
Defined.

(* ====================================================================== *)
(** ** Properties of the results *)
(* ====================================================================== *)

Lemma num_images_of_nonneg (e : Engine) : (0 <= num_images_of e)%Z.
Proof. unfold num_images_of, len. destruct (image_filenames e); lia. Qed.

Lemma len_length (A : Type) (l : list A) (k : Z) :
  (0 <= k)%Z -> List.length l = Z.to_nat k -> len l = k.
Proof. unfold len. lia. Qed.

Lemma matvec_length (t : Tensor) (q sims : list R) :
  matvec t q = Ret sims -> List.length sims = List.length (t_rows t).
Proof.
  unfold matvec. destruct (Nat.eqb (t_dim t) (List.length q)); [|discriminate].
  intro H. inversion H. apply length_map.
Qed.

Lemma matvec_In (t : Tensor) (q sims : list R) (s : R) :
  matvec t q = Ret sims -> In s sims ->
  exists r, In r (t_rows t) /\ s = dot r q.
Proof.
  unfold matvec. destruct (Nat.eqb (t_dim t) (List.length q)); [|discriminate].
  intro H. inversion H; subst. intro Hin.
  apply in_map_iff in Hin. destruct Hin as [r [<- Hr]]. exists r. auto.
Qed.

Lemma map_snd_combine (A B : Type) (l1 : list A) (l2 : list B) :
  List.length l1 = List.length l2 -> map snd (combine l1 l2) = l2.
Proof.
  revert l2. induction l1 as [|a l1 IH]; intros [|b l2] H; simpl in *;
    try reflexivity; try discriminate.
  rewrite IH; [reflexivity | lia].
Qed.

Lemma build_results_total (fns : list pystr) (pairs : list (nat * R)) :
  (forall i s, In (i, s) pairs -> i < List.length fns) ->
  exists results, build_results (Some fns) pairs = Ret results.
Proof.
  induction pairs as [|[i s] pairs IH]; simpl; intro H.
  - eexists. reflexivity.
  - destruct (nth_error fns i) as [f|] eqn:En.
    + destruct IH as [r Hr]; [intros; eapply H; right; eassumption|].
      rewrite Hr. eexists. reflexivity.
    + apply nth_error_None in En. specialize (H i s (or_introl eq_refl)). lia.
Qed.

(** The facts a normal return of [search] rests on, in one place. *)
Lemma search_Ret_facts (env : Env) (query top_k : pyval) (w w' : World)
      (results : list (pystr * R)) :
  search env query top_k w = (Ret results, w') ->
  exists t feat z sims scores idx,
    py_min (resolve_top_k (config (self w)) top_k) (num_images_of (self w))
    = PyInt z /\
    image_embeddings_t (self w) = Some t /\
    matvec t (F_normalize feat) = Ret sims /\
    (0 <= z <= len sims)%Z /\
    List.length scores = Z.to_nat z /\
    List.length idx = Z.to_nat z /\
    StronglySorted (fun a b => Rltb a b = false) scores /\
    (forall i a, In (i, a) (combine idx scores) -> nth_error sims i = Some a) /\
    map snd results = scores /\
    (forall id s, In (id, s) results ->
       exists l i, image_filenames (self w) = Some l /\
                   nth_error l i = Some id /\ In (i, s) (combine idx scores)).
Proof.
  intro H. apply search_Ret in H. destruct H as [_ [_ H]].
  apply search_body_Ret in H.
  destruct H as [t [feat [z [sims [scores [idx [Ht [Hm [Hz [Hk Hb]]]]]]]]]].
  apply (@topk_spec _ Rltb Rltb_asym Rltb_neg_trans) in Hk.
  destruct Hk as [Hr [Hls [Hli [Hs Hn]]]].
  apply build_results_spec in Hb. destruct Hb as [Hmap Hin].
  exists t, feat, z, sims, scores, idx.
  repeat (split; [assumption|]).
  split; [|exact Hin].
  rewrite Hmap. apply map_snd_combine. congruence.
Qed.

(** C6: when [search] returns for [top_k = k] with [k] at most the number
    of images, it returns exactly [k] pairs, and every identifier in them
    is one of the store's identifiers. *)
Theorem search_returns_k_known_identifiers
        (env : Env) (w w' : World) (query : pyval) (k : Z)
        (results : list (pystr * R)) :
  search env query (PyInt k) w = (Ret results, w') ->
  (k <= num_images_of (self w))%Z ->
  len results = k /\
  forall id s, In (id, s) results ->
    exists fns, image_filenames (self w) = Some fns /\ In id fns.
Proof.
  intros H Hk. apply search_Ret_facts in H.
  destruct H as [t [feat [z [sims [scores [idx
    [Hmin [_ [_ [Hz [Hls [_ [_ [_ [Hmap Hin]]]]]]]]]]]]]]].
  simpl in Hmin. unfold py_min in Hmin. simpl in Hmin.
  destruct (num_images_of (self w) <? k)%Z eqn:E;
    [apply Z.ltb_lt in E; lia|].
  inversion Hmin; subst z. split.
  - apply len_length; [lia|].
    rewrite <- Hls, <- Hmap. symmetry. apply length_map.
  - intros id s Hr. destruct (Hin id s Hr) as [l [i [Hl [Hn _]]]].
    exists l. split; [exact Hl|]. eapply nth_error_In. exact Hn.
Qed.

Lemma search_returns_k_known_identifiers_witness :
  exists results : list (pystr * R),
    len results = 1%Z /\
    forall id s, In (id, s) results ->
      exists fns, image_filenames (self Demo.world) = Some fns /\ In id fns.
Proof.
  eexists.
  eapply (@search_returns_k_known_identifiers
            Demo.env Demo.world _ Demo.query 1).
  - exact demo_search.
  - unfold num_images_of, len. simpl. lia.
Defined.

Lemma F_normalize_length (v : list R) :
  List.length (F_normalize v) = List.length v.
Proof. unfold F_normalize. apply length_map. Qed.

(** On a constructed engine, the [try] block returns whenever the query is
    encoded and [top_k] is an integer between 0 and the number of images. *)
Lemma search_body_returns (env : Env) (w : World) (query : pyval)
      (feat : list R) (z : Z) :
  Ready (self w) -> encodes env (self w) query feat ->
  (0 <= z <= num_images_of (self w))%Z ->
  exists results w',
    search_body env query (PyInt z) w = (Ret results, w').
Proof.
  intros [m [tok [fns [t [Hm [Htok [Hf [Ht Hlen]]]]]]]].
  intros [m' [tok' [toks [feats [t' [Hm' [Htok' [Hrun [Henc [Ht' Hdim]]]]]]]]]].
  intro Hz.
  rewrite Hm in Hm'. inversion Hm'; subst m'.
  rewrite Htok in Htok'. inversion Htok'; subst tok'.
  rewrite Ht in Ht'. inversion Ht'; subst t'.
  unfold num_images_of in Hz. rewrite Hf in Hz.
  unfold search_body, bind, gets, log, lift, getattr_model, raise. simpl.
  rewrite Htok, Hrun, Hm. simpl. rewrite Henc. simpl. rewrite Ht. simpl.
  unfold matvec. rewrite F_normalize_length, Hdim, Nat.eqb_refl. simpl.
  set (sims := map (fun r => dot r (F_normalize feat)) (t_rows t)).
  assert (Hsl : List.length sims = List.length fns).
  { unfold sims. rewrite length_map. symmetry. exact Hlen. }
  destruct (topk Rltb sims z) as [[scores idx]|] eqn:Ek.
  - simpl. rewrite Hf.
    apply (@topk_spec _ Rltb Rltb_asym Rltb_neg_trans) in Ek.
    destruct Ek as [_ [_ [_ [_ Hn]]]].
    destruct (@build_results_total fns (combine idx scores)) as [r Hr].
    + intros i s Hin. apply Hn in Hin.
      rewrite <- Hsl. apply nth_error_Some. congruence.
    + rewrite Hr. eexists _, _. reflexivity.
  - exfalso. unfold topk in Ek.
    assert (E : ((0 <=? z) && (z <=? len sims))%Z = true).
    { apply andb_true_intro. unfold len. rewrite Hsl.
      split; apply Z.leb_le; unfold len in Hz; lia. }
    rewrite E in Ek. discriminate.
Qed.

(** C4: on a valid query, a [top_k] above the number of images [N] is
    replaced by [N] before the [try] block runs.  Whatever [search] then
    returns has exactly [N] pairs, and on a constructed engine it does
    return whenever the query is encoded. *)
Theorem search_clamps_top_k
        (env : Env) (w : World) (query : pyval) (k : Z) :
  valid_query (config (self w)) query ->
  (num_images_of (self w) < k)%Z ->
  search env query (PyInt k) w
  = try_except (search_body env query (PyInt (num_images_of (self w))))
      (fun e => raise (ExnFrom SearchError e)) w
  /\ (forall results w',
        search env query (PyInt k) w = (Ret results, w') ->
        len results = num_images_of (self w))
  /\ (forall feat,
        Ready (self w) -> encodes env (self w) query feat ->
        exists results w',
          search env query (PyInt k) w = (Ret results, w') /\
          len results = num_images_of (self w)).
Proof.
  intros Hq Hk.
  pose proof (num_images_of_nonneg (self w)) as HN.
  assert (Hrun : search env query (PyInt k) w
    = try_except (search_body env query (PyInt (num_images_of (self w))))
        (fun e => raise (ExnFrom SearchError e)) w).
  { rewrite search_run. apply query_accepted_iff in Hq. rewrite Hq.
    simpl resolve_top_k. unfold top_k_rejected. simpl.
    destruct (k <? 1)%Z eqn:E1; [apply Z.ltb_lt in E1; lia|].
    unfold py_min. simpl.
    apply Z.ltb_lt in Hk. rewrite Hk. reflexivity. }
  assert (Hlen : forall results w',
    search env query (PyInt k) w = (Ret results, w') ->
    len results = num_images_of (self w)).
  { intros results w' H. apply search_Ret_facts in H.
    destruct H as [t [feat [z [sims [scores [idx
      [Hmin [_ [_ [Hz [Hls [_ [_ [_ [Hmap _]]]]]]]]]]]]]]].
    simpl in Hmin. unfold py_min in Hmin. simpl in Hmin.
    apply Z.ltb_lt in Hk. rewrite Hk in Hmin. inversion Hmin; subst z.
    apply len_length; [lia|].
    rewrite <- Hls, <- Hmap. symmetry. apply length_map. }
  split; [exact Hrun|]. split; [exact Hlen|].
  intros feat Hready Henc.
  destruct (@search_body_returns env w query feat (num_images_of (self w))
              Hready Henc) as [results [w' Hb]]; [lia|].
  exists results, w'.
  assert (Hs : search env query (PyInt k) w = (Ret results, w')).
  { rewrite Hrun. unfold try_except. rewrite Hb. reflexivity. }
  split; [exact Hs | apply (Hlen _ _ Hs)].
Qed.

Lemma demo_valid_query : valid_query (config Demo.engine) Demo.query.
Proof. eexists. split; [reflexivity|]. vm_compute. split; discriminate. Qed.

Lemma demo_Ready : Ready Demo.engine.
Proof. apply (proj1 (init_Ready Demo.env None demo_init)). Qed.

Lemma demo_encodes : encodes Demo.env Demo.engine Demo.query [1%R].
Proof.
  exists Demo.the_model, Demo.the_tokenizer. do 3 eexists.
  repeat (split; [reflexivity|]). reflexivity.
Qed.

Lemma search_clamps_top_k_witness :
  exists results w',
    search Demo.env Demo.query (PyInt 20) Demo.world = (Ret results, w') /\
    len results = 1%Z.
Proof.
  destruct (@search_clamps_top_k Demo.env Demo.world Demo.query 20)
    as [_ [_ H]].
  - exact demo_valid_query.
  - unfold num_images_of, len. simpl. lia.
  - exact (H [1%R] demo_Ready demo_encodes).
Defined.

Lemma demo_raw_score : Demo.raw_score = 2%R.
Proof.
  unfold Demo.raw_score, F_normalize, norm2. simpl.
  replace (1 * 1 + 0)%R with 1%R by ring. rewrite sqrt_1.
  rewrite Rmax_left; [field|].
  pose proof eps_pos. unfold eps in *.
  assert (/ 1000000000000 <= / 1)%R.
  { apply Rinv_le_contravar; lra. }
  rewrite Rinv_1 in *. assumption.
Qed.

(** With [NORMALIZE_EMBEDDINGS] off the scores are not confined at all:
    the engine built on a snapshot whose only embedding is [(2)] answers a
    query with the score 2 (no operation of this run is rounded). *)
Lemma raw_store_score_above_one :
  __init__ Demo.raw_env None = Ret Demo.raw_engine /\
  exists results w',
    search Demo.raw_env Demo.query (PyInt 1) Demo.raw_world
    = (Ret results, w') /\
    ~ Forall (fun p => (-1 <= snd p <= 1)%R) results.
Proof.
  split; [reflexivity|].
  eexists _, _. split; [exact demo_raw_search|].
  intro H. inversion H as [|p l Hp _]; subst. simpl in Hp.
  rewrite demo_raw_score in Hp. lra.
Qed.

(** The constant [Float32.eps] is the binary32 number nearest to 1e-12:
    a mantissa of 24 bits at the exponent -63, within half a unit in the
    last place of 1e-12. *)
Example float32_eps_nearest :
  match Float32.eps with
  | S754_finite false m e =>
      e = (-63)%Z /\
      (2 ^ 23 <= Zpos m < 2 ^ 24)%Z /\
      (2 * Z.abs (Zpos m * 10 ^ 12 - 2 ^ 63) <= 10 ^ 12)%Z
  | _ => False
  end.
Proof. vm_compute. repeat split; discriminate. Qed.

(** C5: the code at a failing input.  Under the default configuration
    ([NORMALIZE_EMBEDDINGS] on, [float32] on a CPU), for a snapshot whose
    embedding is [(1, 1, 4)] and a query that the model encodes to
    [(1, 1, 4)], the score [search] returns is [1 + 2^-23], which is above
    1, whether the three products are added up from the left or from the
    right. *)
Theorem float32_exact_match_scores_above_one :
  Float32.similarities [Float32.row] Float32.row = [Float32.above_one] /\
  SFltb (Float32.of_Z 1) Float32.above_one = true /\
  Float32.dot_from_right
    (Float32.F_normalize Float32.row) (Float32.F_normalize Float32.row)
  = Float32.above_one.
Proof. vm_compute. repeat split. Qed.

(* ====================================================================== *)
(** ** Failures inside the [try] block, repeated calls, and [cleanup] *)
(* ====================================================================== *)

Lemma top_k_rejected_false_iff (v : pyval) :
  top_k_rejected v = false <-> positive_int v.
Proof.
  unfold top_k_rejected, positive_int. split.
  - destruct v as [| [|] | z | | |]; simpl; try discriminate.
    + intros _. exists 1%Z. split; [reflexivity | lia].
    + intro H. apply Z.ltb_ge in H. exists z. auto.
  - intros [z [Hv Hz]].
    destruct v as [| [|] | z' | | |]; simpl in *; try discriminate;
      try reflexivity.
    + inversion Hv; subst. lia.
    + inversion Hv; subst. apply Z.ltb_ge. lia.
Qed.

(** C7: once the inputs have passed validation, an exception [e] raised
    by the tokenizer, the model or the ranking steps makes [search] raise
    [SearchError] from [e], which is not an [InvalidQueryError]; the
    attributes of the engine are as before the call, and any later [search]
    gives what it would have given without the failed call. *)
Theorem search_wraps_failures
        (env : Env) (w w1 : World) (query top_k : pyval) (e : exn) :
  valid_query (config (self w)) query ->
  positive_int (resolve_top_k (config (self w)) top_k) ->
  search_body env query
    (py_min (resolve_top_k (config (self w)) top_k) (num_images_of (self w))) w
  = (Raise e, w1) ->
  isinstance_exn e Exception = true ->
  exists w',
    search env query top_k w = (Raise (ExnFrom SearchError e), w') /\
    isinstance_exn (ExnFrom SearchError e) InvalidQueryError = false /\
    self w' = self w /\
    forall query2 top_k2,
      fst (search env query2 top_k2 w') = fst (search env query2 top_k2 w).
Proof.
  intros Hq Hk Hb He.
  apply query_accepted_iff in Hq. apply top_k_rejected_false_iff in Hk.
  assert (Hs : search env query top_k w = (Raise (ExnFrom SearchError e), w1)).
  { rewrite search_run, Hq, Hk. unfold try_except. rewrite Hb, He. reflexivity. }
  exists w1. split; [exact Hs|]. split; [reflexivity|].
  pose proof (@readonly_run _ (search env query top_k) w
                (readonly_search env query top_k)) as [Hself _].
  rewrite Hs in Hself. simpl in Hself. split; [exact Hself|].
  intros query2 top_k2.
  apply (@readonly_run _ (search env query2 top_k2) w
           (readonly_search env query2 top_k2)).
  exact Hself.
Qed.

Lemma search_wraps_failures_witness :
  exists w',
    search Demo.failing_env Demo.query (PyInt 1) Demo.failing_world
    = (Raise (ExnFrom SearchError (Exn RuntimeError)), w') /\
    isinstance_exn (ExnFrom SearchError (Exn RuntimeError)) InvalidQueryError
    = false /\
    self w' = self Demo.failing_world /\
    forall query2 top_k2,
      fst (search Demo.failing_env query2 top_k2 w')
      = fst (search Demo.failing_env query2 top_k2 Demo.failing_world).
Proof.
  eapply (@search_wraps_failures
            Demo.failing_env Demo.failing_world _ Demo.query (PyInt 1)).
  - exact demo_valid_query.
  - exists 1%Z. split; [reflexivity | lia].
  - exact demo_failing_body.
  - reflexivity.
Defined.

(** C9: a second [search] with the same query and [top_k], run right after
    the first, gives the same outcome, and the attributes of the engine are
    those the first call started from. *)
Theorem search_twice_same_results
        (env : Env) (w : World) (query top_k : pyval) :
  fst (search env query top_k (snd (search env query top_k w)))
  = fst (search env query top_k w)
  /\ self (snd (search env query top_k (snd (search env query top_k w))))
     = self w.
Proof.
  pose proof (@readonly_run _ (search env query top_k) w
                (readonly_search env query top_k)) as [Hself Hsame].
  split.
  - apply Hsame. exact Hself.
  - pose proof (@readonly_run _ (search env query top_k)
                  (snd (search env query top_k w))
                  (readonly_search env query top_k)) as [Hself2 _].
    rewrite Hself2. exact Hself.
Qed.

(** C8 does not hold of the code: on an engine whose model is loaded, the
    first [cleanup] returns and deletes the attribute [model]; the second
    [cleanup] then raises [AttributeError] at its test
    [self.model is not None]. *)
Theorem cleanup_second_call_raises (env : Env) (w : World) (m : Model) :
  model (self w) = Bound (Some m) ->
  exists w1,
    cleanup env w = (Ret tt, w1) /\
    model (self w1) = Deleted /\
    cleanup env w1 = (Raise (Exn AttributeError), w1) /\
    __exit__ env w1 = (Raise (Exn AttributeError), w1).
Proof.
  intro Hm. unfold __exit__, cleanup, bind, getattr_model. rewrite Hm.
  unfold delattr_model, modify. simpl.
  destruct (cuda_is_available env); simpl; eexists;
    (split; [reflexivity|]); simpl; auto.
Qed.

Lemma cleanup_second_call_raises_witness :
  exists w1,
    cleanup Demo.env Demo.world = (Ret tt, w1) /\
    model (self w1) = Deleted /\
    cleanup Demo.env w1 = (Raise (Exn AttributeError), w1) /\
    __exit__ Demo.env w1 = (Raise (Exn AttributeError), w1).
Proof.
  apply (@cleanup_second_call_raises Demo.env Demo.world Demo.the_model).
  reflexivity.
Defined.

(* ====================================================================== *)
(** ** More facts about top-k selection *)
(* ====================================================================== *)

Lemma firstn_NoDup (B : Type) (n : nat) (l : list B) :
  NoDup l -> NoDup (firstn n l).
Proof.
  intro H. revert n. induction H as [|x l Hx Hl IH]; intros [|n]; simpl;
    try constructor.
  - intro Hin. apply Hx. eapply firstn_incl. exact Hin.
  - apply IH.
Qed.

Lemma sorted_app_inv (B : Type) (R : B -> B -> Prop) (l1 l2 : list B) :
  StronglySorted R (l1 ++ l2) ->
  forall x y, In x l1 -> In y l2 -> R x y.
Proof.
  induction l1 as [|a l1 IH]; simpl; intros H x y Hx Hy; [contradiction|].
  inversion H as [|? ? Hs Hall]; subst.
  destruct Hx as [<-|Hx].
  - rewrite Forall_forall in Hall. apply Hall. apply in_or_app. right. exact Hy.
  - apply IH; assumption.
Qed.

Lemma combine_fst_snd (B C : Type) (l : list (B * C)) :
  combine (map fst l) (map snd l) = l.
Proof.
  induction l as [|[b c] l IH]; simpl; [reflexivity|]. rewrite IH. reflexivity.
Qed.

Section TopKOrder.

Variable A : Type.
Variable ltb : A -> A -> bool.
Hypothesis ltb_asym : forall a b, ltb a b = true -> ltb b a = false.
Hypothesis ltb_neg_trans :
  forall a b c, ltb a b = false -> ltb b c = false -> ltb a c = false.

Lemma insert_desc_perm (x : nat * A) (l : list (nat * A)) :
  Permutation (insert_desc ltb x l) (x :: l).
Proof.
  induction l as [|y l IH]; simpl; [apply Permutation_refl|].
  destruct (ltb (snd x) (snd y)).
  - apply perm_trans with (y :: x :: l).
    + apply perm_skip. exact IH.
    + apply perm_swap.
  - apply Permutation_refl.
Qed.

Lemma sort_desc_perm (l : list (nat * A)) : Permutation (sort_desc ltb l) l.
Proof.
  induction l as [|x l IH]; simpl; [apply perm_nil|].
  apply perm_trans with (x :: sort_desc ltb l).
  - apply insert_desc_perm.
  - apply perm_skip. exact IH.
Qed.

Lemma enumerate_fst (xs : list A) :
  map fst (enumerate xs) = seq 0 (List.length xs).
Proof.
  unfold enumerate.
  assert (G : forall (l : list A) (s : nat),
             map fst (combine (seq s (List.length l)) l)
             = seq s (List.length l)).
  { induction l as [|x l IH]; intro s; simpl; [reflexivity|].
    rewrite IH. reflexivity. }
  apply G.
Qed.

Lemma enumerate_complete (xs : list A) (j : nat) (a : A) :
  nth_error xs j = Some a -> In (j, a) (enumerate xs).
Proof.
  unfold enumerate.
  assert (G : forall (l : list A) (s i : nat),
             nth_error l i = Some a ->
             In (s + i, a) (combine (seq s (List.length l)) l)).
  { induction l as [|x l IH]; intros s [|i] H; simpl in *; try discriminate.
    - inversion H; subst. left. rewrite Nat.add_0_r. reflexivity.
    - right. replace (s + S i) with (S s + i) by lia. apply IH. exact H. }
  intro H. apply (G xs 0 j H).
Qed.

(** Beyond [topk_spec]: the positions are distinct, no entry left out is
    above a selected one, and selecting as many entries as there are
    selects every position. *)
Lemma topk_order (xs : list A) (k : Z) (scores : list A) (idx : list nat) :
  topk ltb xs k = Some (scores, idx) ->
  NoDup idx /\
  (forall j a s, nth_error xs j = Some a -> ~ In j idx -> In s scores ->
                 ltb s a = false) /\
  (k = len xs -> Permutation idx (seq 0 (List.length xs))).
Proof.
  unfold topk.
  destruct ((0 <=? k)%Z && (k <=? len xs)%Z) eqn:E; [|discriminate].
  intro H. inversion H; subst; clear H.
  set (sorted := sort_desc ltb (enumerate xs)).
  assert (Hperm : Permutation sorted (enumerate xs)) by apply sort_desc_perm.
  assert (Hfst : Permutation (map fst sorted) (seq 0 (List.length xs))).
  { rewrite <- enumerate_fst. apply Permutation_map. exact Hperm. }
  assert (Hnd : NoDup (map fst sorted)).
  { eapply Permutation_NoDup; [apply Permutation_sym; exact Hfst|].
    apply seq_NoDup. }
  split; [|split].
  - rewrite <- firstn_map. apply firstn_NoDup. exact Hnd.
  - intros j a s Hj Hnot Hs.
    apply enumerate_complete in Hj.
    apply (Permutation_in _ (Permutation_sym Hperm)) in Hj.
    rewrite <- (firstn_skipn (Z.to_nat k) sorted) in Hj.
    apply in_app_or in Hj. destruct Hj as [Hj|Hj].
    + exfalso. apply Hnot. apply in_map_iff. exists (j, a). auto.
    + apply in_map_iff in Hs. destruct Hs as [x [<- Hx]].
      assert (Hsorted : StronglySorted (not_below ltb)
                (firstn (Z.to_nat k) sorted ++ skipn (Z.to_nat k) sorted)).
      { rewrite firstn_skipn. apply sort_desc_sorted; assumption. }
      apply (@sorted_app_inv _ _ _ _ Hsorted x (j, a) Hx Hj).
  - intro Hk. rewrite firstn_all2; [exact Hfst|].
    unfold sorted. rewrite sort_desc_length, enumerate_length.
    subst k. unfold len. lia.
Qed.

End TopKOrder.

(* ====================================================================== *)
(** ** The pairs [search] returns *)
(* ====================================================================== *)

Lemma build_results_Forall2 (fns : option (list pystr))
      (pairs : list (nat * R)) (results : list (pystr * R)) :
  build_results fns pairs = Ret results ->
  Forall2 (fun p r => exists l, fns = Some l /\
                        nth_error l (fst p) = Some (fst r) /\ snd r = snd p)
          pairs results.
Proof.
  revert results. induction pairs as [|[i s] pairs IH]; simpl; intros results H.
  - inversion H. constructor.
  - destruct fns as [l|]; [|discriminate].
    destruct (nth_error l i) as [f|] eqn:En; [|discriminate].
    destruct (build_results (Some l) pairs) as [r|e]; [|discriminate].
    inversion H; subst. constructor.
    + exists l. simpl. auto.
    + apply IH. reflexivity.
Qed.

(** A normal return of [search] on a query the engine encodes to [feat]:
    the scores selected from are the inner products of the stored rows with
    the normalised [feat]. *)
Lemma search_Ret_encoded (env : Env) (query top_k : pyval) (w w' : World)
      (results : list (pystr * R)) (feat : list R) :
  search env query top_k w = (Ret results, w') ->
  encodes env (self w) query feat ->
  exists t z scores idx,
    py_min (resolve_top_k (config (self w)) top_k) (num_images_of (self w))
    = PyInt z /\
    image_embeddings_t (self w) = Some t /\
    topk Rltb (map (fun r => dot r (F_normalize feat)) (t_rows t)) z
    = Some (scores, idx) /\
    build_results (image_filenames (self w)) (combine idx scores)
    = Ret results.
Proof.
  intros H Henc. apply search_Ret in H. destruct H as [_ [_ H]].
  destruct Henc as [m [tok [toks [feats [t [Hm [Htok [Hrun [Henc [Ht Hdim]]]]]]]]]].
  revert H.
  unfold search_body, bind, gets, log, lift, getattr_model, raise. simpl.
  rewrite Htok, Hrun, Hm. simpl. rewrite Henc. simpl. rewrite Ht. simpl.
  unfold matvec. rewrite F_normalize_length, Hdim, Nat.eqb_refl. simpl.
  unfold torch_topk.
  destruct (py_min (resolve_top_k (config (self w)) top_k)
                   (num_images_of (self w))) as [| | z | | |]; try discriminate.
  destruct (topk Rltb _ z) as [[scores idx]|] eqn:Ek; [|discriminate].
  simpl. intro H.
  destruct (build_results (image_filenames (self w)) (combine idx scores))
    as [r|] eqn:Eb; [|discriminate].
  inversion H; subst.
  exists t, z, scores, idx. auto.
Qed.

Lemma Forall2_In_r (B C : Type) (P : B -> C -> Prop) (l1 : list B)
      (l2 : list C) (y : C) :
  Forall2 P l1 l2 -> In y l2 -> exists x, In x l1 /\ P x y.
Proof.
  induction 1 as [|a b l1 l2 Hab _ IH]; simpl; [contradiction|].
  intros [<-|Hy].
  - exists a. auto.
  - destruct (IH Hy) as [x [Hx Hp]]. exists x. auto.
Qed.

Lemma Forall2_In_l (B C : Type) (P : B -> C -> Prop) (l1 : list B)
      (l2 : list C) (x : B) :
  Forall2 P l1 l2 -> In x l1 -> exists y, In y l2 /\ P x y.
Proof.
  induction 1 as [|a b l1 l2 Hab _ IH]; simpl; [contradiction|].
  intros [<-|Hx].
  - exists b. auto.
  - destruct (IH Hx) as [y [Hy Hp]]. exists y. auto.
Qed.

(** X1: every pair [search] returns is index-aligned with the store: the
    identifier stands at some position [i] of the identifiers, and the
    score is the inner product of the stored row at the same position [i]
    with the normalised feature vector of the query. *)
Theorem search_results_index_aligned
        (env : Env) (w w' : World) (query top_k : pyval)
        (results : list (pystr * R)) (feat : list R) :
  search env query top_k w = (Ret results, w') ->
  encodes env (self w) query feat ->
  forall id s, In (id, s) results ->
    exists fns t i row,
      image_filenames (self w) = Some fns /\
      image_embeddings_t (self w) = Some t /\
      nth_error fns i = Some id /\
      nth_error (t_rows t) i = Some row /\
      s = dot row (F_normalize feat).
Proof.
  intros H Henc id s Hin.
  destruct (@search_Ret_encoded env query top_k w w' results feat H Henc)
    as [t [z [scores [idx [_ [Ht [Hk Hb]]]]]]].
  apply (@topk_spec _ Rltb Rltb_asym Rltb_neg_trans) in Hk.
  destruct Hk as [_ [_ [_ [_ Hn]]]].
  apply build_results_spec in Hb. destruct Hb as [_ Hres].
  destruct (Hres id s Hin) as [fns [i [Hf [Hi Hc]]]].
  apply Hn in Hc. rewrite nth_error_map in Hc.
  destruct (nth_error (t_rows t) i) as [row|] eqn:Er; [|discriminate].
  simpl in Hc. inversion Hc; subst.
  exists fns, t, i, row. auto.
Qed.

Lemma search_results_index_aligned_witness :
  exists fns t i row,
    image_filenames Demo.engine = Some fns /\
    image_embeddings_t Demo.engine = Some t /\
    nth_error fns i = Some (pystr_of_string "a.jpg") /\
    nth_error (t_rows t) i = Some row /\
    Demo.score = dot row (F_normalize [1%R]).
Proof.
  apply (@search_results_index_aligned
           Demo.env Demo.world _ Demo.query (PyInt 1) _ [1%R]
           demo_search demo_encodes).
  left. reflexivity.
Defined.

Lemma combine_In_left (B C : Type) (l1 : list B) (l2 : list C) (x : B) :
  List.length l1 = List.length l2 -> In x l1 ->
  exists y, In (x, y) (combine l1 l2).
Proof.
  revert l2. induction l1 as [|a l1 IH]; intros [|b l2] Hlen Hin; simpl in *;
    try contradiction; try discriminate.
  destruct Hin as [<-|Hin].
  - exists b. left. reflexivity.
  - destruct (IH l2) as [y Hy]; [lia | exact Hin |]. exists y. right. exact Hy.
Qed.

Lemma combine_In_right (B C : Type) (l1 : list B) (l2 : list C) (y : C) :
  List.length l1 = List.length l2 -> In y l2 ->
  exists x, In (x, y) (combine l1 l2).
Proof.
  revert l2. induction l1 as [|a l1 IH]; intros [|b l2] Hlen Hin; simpl in *;
    try contradiction; try discriminate.
  destruct Hin as [<-|Hin].
  - exists a. left. reflexivity.
  - destruct (IH l2) as [x Hx]; [lia | exact Hin |]. exists x. right. exact Hx.
Qed.

(** X3: the pairs [search] returns are the best ones: an image that is not
    among the results does not score above any returned score. *)
Theorem search_returns_the_best
        (env : Env) (w w' : World) (query top_k : pyval)
        (results : list (pystr * R)) (feat : list R) :
  search env query top_k w = (Ret results, w') ->
  encodes env (self w) query feat ->
  forall fns t j id row,
    image_filenames (self w) = Some fns ->
    image_embeddings_t (self w) = Some t ->
    nth_error fns j = Some id ->
    nth_error (t_rows t) j = Some row ->
    ~ In id (map fst results) ->
    forall s, In s (map snd results) ->
              (dot row (F_normalize feat) <= s)%R.
Proof.
  intros H Henc fns t j id row Hf Ht Hj Hrow Hnot s Hs.
  destruct (@search_Ret_encoded env query top_k w w' results feat H Henc)
    as [t' [z [scores [idx [_ [Ht' [Hk Hb]]]]]]].
  rewrite Ht in Ht'. inversion Ht'; subst t'.
  pose proof (@topk_spec _ Rltb Rltb_asym Rltb_neg_trans _ _ _ _ Hk)
    as [_ [Hls [Hli _]]].
  pose proof (@topk_order _ Rltb Rltb_asym Rltb_neg_trans _ _ _ _ Hk)
    as [_ [Hbest _]].
  pose proof (build_results_Forall2 _ _ Hb) as Hall.
  pose proof (build_results_spec _ _ Hb) as [Hmap _].
  rewrite Hmap, map_snd_combine in Hs by congruence.
  apply Rge_le. apply Rltb_false_iff.
  apply (Hbest j (dot row (F_normalize feat)) s).
  - rewrite nth_error_map, Hrow. reflexivity.
  - intro Hin.
    destruct (@combine_In_left _ _ idx scores j) as [a Ha];
      [congruence | exact Hin |].
    destruct (@Forall2_In_l _ _ _ _ _ (j, a) Hall Ha)
      as [r [Hr [l [Hl [Hn _]]]]].
    simpl in Hn. rewrite Hf in Hl. inversion Hl; subst l.
    rewrite Hj in Hn. inversion Hn; subst.
    apply Hnot. apply in_map. exact Hr.
  - exact Hs.
Qed.

Lemma Forall2_NoDup_lookup (l : list pystr) (pairs : list (nat * R))
      (results : list (pystr * R)) :
  NoDup l -> NoDup (map fst pairs) ->
  Forall2 (fun p r => nth_error l (fst p) = Some (fst r)) pairs results ->
  NoDup (map fst results).
Proof.
  intros Hl Hp H. induction H as [|p r pairs results Hpr Hall IH]; simpl.
  - constructor.
  - simpl in Hp. inversion Hp as [|? ? Hnotin Hnd]; subst.
    constructor; [|apply IH; exact Hnd].
    intro Hin. apply in_map_iff in Hin. destruct Hin as [r' [Heq Hr']].
    destruct (@Forall2_In_r _ _ _ _ _ r' Hall Hr') as [p' [Hp' Hlook]].
    rewrite Heq, <- Hpr in Hlook.
    assert (Hlt : fst p' < List.length l).
    { apply nth_error_Some. rewrite Hlook, Hpr. discriminate. }
    pose proof (proj1 (NoDup_nth_error l) Hl (fst p') (fst p) Hlt Hlook) as E.
    apply Hnotin. rewrite <- E. apply in_map. exact Hp'.
Qed.

Lemma map_fst_combine (B C : Type) (l1 : list B) (l2 : list C) :
  List.length l1 = List.length l2 -> map fst (combine l1 l2) = l1.
Proof.
  revert l2. induction l1 as [|a l1 IH]; intros [|b l2] H; simpl in *;
    try reflexivity; try discriminate.
  rewrite IH; [reflexivity | lia].
Qed.

Lemma Forall2_weaken_lookup (fns : option (list pystr)) (l : list pystr)
      (pairs : list (nat * R)) (results : list (pystr * R)) :
  fns = Some l ->
  Forall2 (fun p r => exists l', fns = Some l' /\
                        nth_error l' (fst p) = Some (fst r) /\ snd r = snd p)
          pairs results ->
  Forall2 (fun p r => nth_error l (fst p) = Some (fst r)) pairs results.
Proof.
  intros Hf H. induction H as [|p r ps rs [l' [Hl' [Hn _]]] _ IH];
    constructor; [|exact IH].
  rewrite Hf in Hl'. inversion Hl'; subst. exact Hn.
Qed.

(** X4: when the identifiers of the store are pairwise distinct, no
    identifier occurs twice in what [search] returns. *)
Theorem search_results_distinct
        (env : Env) (w w' : World) (query top_k : pyval)
        (results : list (pystr * R)) (fns : list pystr) :
  search env query top_k w = (Ret results, w') ->
  image_filenames (self w) = Some fns ->
  NoDup fns ->
  NoDup (map fst results).
Proof.
  intros H Hf Hnd. apply search_Ret in H. destruct H as [_ [_ H]].
  apply search_body_Ret in H.
  destruct H as [t [feat [z [sims [scores [idx [_ [_ [_ [Hk Hb]]]]]]]]]].
  pose proof (@topk_spec _ Rltb Rltb_asym Rltb_neg_trans _ _ _ _ Hk)
    as [_ [Hls [Hli _]]].
  pose proof (@topk_order _ Rltb Rltb_asym Rltb_neg_trans _ _ _ _ Hk)
    as [Hidx _].
  apply build_results_Forall2 in Hb.
  apply (Forall2_weaken_lookup Hf) in Hb.
  apply (@Forall2_NoDup_lookup fns (combine idx scores) results Hnd);
    [|exact Hb].
  rewrite map_fst_combine by congruence. exact Hidx.
Qed.

Lemma map_nth_seq (l : list pystr) :
  map (fun i => nth i l []) (seq 0 (List.length l)) = l.
Proof.
  induction l as [|x l IH]; simpl; [reflexivity|].
  f_equal. rewrite <- seq_shift, map_map. exact IH.
Qed.

Lemma Forall2_map_nth (l : list pystr) (pairs : list (nat * R))
      (results : list (pystr * R)) :
  Forall2 (fun p r => nth_error l (fst p) = Some (fst r)) pairs results ->
  map fst results = map (fun i => nth i l []) (map fst pairs).
Proof.
  induction 1 as [|p r ps rs Hpr _ IH]; simpl; [reflexivity|].
  rewrite IH. f_equal. symmetry. apply nth_error_nth. exact Hpr.
Qed.

(** X5: asking for at least as many results as there are images returns
    every image exactly once: the returned identifiers are a rearrangement
    of the identifiers of the store. *)
Theorem search_returns_every_image
        (env : Env) (w w' : World) (query top_k : pyval)
        (results : list (pystr * R)) (fns : list pystr) (k : Z) :
  search env query top_k w = (Ret results, w') ->
  image_filenames (self w) = Some fns ->
  int_value (resolve_top_k (config (self w)) top_k) = Some k ->
  (len fns <= k)%Z ->
  Permutation (map fst results) fns.
Proof.
  intros H Hf Hv Hk. apply search_Ret in H. destruct H as [_ [_ H]].
  apply search_body_Ret in H.
  destruct H as [t [feat [z [sims [scores [idx [_ [_ [Hz [Htop Hb]]]]]]]]]].
  assert (HN : num_images_of (self w) = len fns).
  { unfold num_images_of. rewrite Hf. reflexivity. }
  assert (Ez : z = len fns).
  { unfold py_min in Hz. rewrite Hv, HN in Hz.
    destruct (len fns <? k)%Z eqn:E.
    - inversion Hz. reflexivity.
    - apply Z.ltb_ge in E. rewrite Hz in Hv. simpl in Hv.
      inversion Hv. lia. }
  pose proof (@topk_spec _ Rltb Rltb_asym Rltb_neg_trans _ _ _ _ Htop)
    as [_ [Hls [Hli _]]].
  pose proof (@topk_order _ Rltb Rltb_asym Rltb_neg_trans _ _ _ _ Htop)
    as [Hidx _].
  apply build_results_Forall2 in Hb.
  apply (Forall2_weaken_lookup Hf) in Hb.
  rewrite (@Forall2_map_nth fns _ _ Hb), map_fst_combine by congruence.
  apply perm_trans
    with (map (fun i => nth i fns []) (seq 0 (List.length fns)));
    [|rewrite map_nth_seq; apply Permutation_refl].
  apply Permutation_map.
  apply NoDup_Permutation_bis; [exact Hidx | |].
  - rewrite length_seq, Hli, Ez. unfold len. lia.
  - intros i Hi. apply in_seq. split; [lia|]. simpl.
    destruct (@combine_In_left _ _ idx scores i) as [a Ha];
      [congruence | exact Hi |].
    destruct (@Forall2_In_l _ _ _ _ _ (i, a) Hb Ha) as [r [_ Hn]].
    simpl in Hn. apply nth_error_Some. rewrite Hn. discriminate.
Qed.

Lemma search_returns_every_image_witness :
  Permutation (map fst [(pystr_of_string "a.jpg", Demo.score)]) Demo.names.
Proof.
  apply (@search_returns_every_image
           Demo.env Demo.world _ Demo.query (PyInt 20) _ Demo.names 20
           demo_search_clamped eq_refl eq_refl).
  unfold len. simpl. lia.
Defined.

(* ====================================================================== *)
(** ** Runs on the two snapshots *)
(* ====================================================================== *)

Lemma eps_le_1 : (eps <= 1)%R.
Proof.
  unfold eps.
  assert (H : (/ 1000000000000 <= / 1)%R) by (apply Rinv_le_contravar; lra).
  rewrite Rinv_1 in H. exact H.
Qed.

Lemma demo_unit_query : F_normalize [1%R] = [1%R].
Proof.
  unfold F_normalize, norm2. simpl.
  replace (1 * 1 + 0)%R with 1%R by ring. rewrite sqrt_1.
  rewrite Rmax_left by apply eps_le_1. f_equal. field.
Qed.

Lemma demo_stored_row : F_normalize [2%R] = [1%R].
Proof.
  unfold F_normalize, norm2. simpl.
  replace (2 * 2 + 0)%R with (2 * 2)%R by ring.
  rewrite sqrt_square by lra.
  rewrite Rmax_left by (pose proof eps_le_1; lra). f_equal. field.
Qed.

Example demo2_init : __init__ Demo2.env None = Ret Demo2.engine.
Proof. reflexivity. Qed.

Lemma demo2_encodes : encodes Demo2.env Demo2.engine Demo.query [1%R].
Proof.
  exists Demo.the_model, Demo.the_tokenizer. do 3 eexists.
  repeat (split; [reflexivity|]). reflexivity.
Qed.

Lemma demo2_scores : Demo2.score_a = 2%R /\ Demo2.score_b = 1%R.
Proof.
  unfold Demo2.score_a, Demo2.score_b. rewrite demo_unit_query. simpl.
  split; ring.
Qed.

(** With [top_k = 1] the two-image engine returns [a.jpg] alone. *)
Lemma demo2_search :
  search Demo2.env Demo.query (PyInt 1) Demo2.world
  = (Ret [(pystr_of_string "a.jpg", Demo2.score_a)],
     {| self := Demo2.engine; calls := Demo.search_calls 1 |}).
Proof.
  rewrite search_run.
  assert (Eq : query_accepted (config (self Demo2.world)) Demo.query = true)
    by reflexivity.
  rewrite Eq.
  assert (Ek : top_k_rejected
                 (resolve_top_k (config (self Demo2.world)) (PyInt 1)) = false)
    by reflexivity.
  rewrite Ek.
  unfold try_except, search_body, bind, gets, log, lift, getattr_model.
  simpl. unfold torch_topk, topk. simpl.
  fold Demo2.score_a. fold Demo2.score_b.
  destruct demo2_scores as [Ea Eb].
  assert (El : Rltb Demo2.score_a Demo2.score_b = false).
  { apply Rltb_false_iff. rewrite Ea, Eb. lra. }
  unfold sort_desc, enumerate. simpl.
  unfold Demo2.score_a, Demo2.score_b in El. simpl in El.
  rewrite El. reflexivity.
Qed.

Lemma search_returns_the_best_witness : (Demo2.score_b <= Demo2.score_a)%R.
Proof.
  apply (@search_returns_the_best
           Demo2.env Demo2.world _ Demo.query (PyInt 1) _ [1%R]
           demo2_search demo2_encodes
           Demo2.names _ 1 (pystr_of_string "b.jpg") [1%R]
           eq_refl eq_refl eq_refl eq_refl).
  - simpl. intros [H|[]]. discriminate H.
  - left. reflexivity.
Defined.

(** With [top_k = 2] it returns both images, [a.jpg] first. *)
Lemma demo2_search_both :
  search Demo2.env Demo.query (PyInt 2) Demo2.world
  = (Ret [(pystr_of_string "a.jpg", Demo2.score_a);
          (pystr_of_string "b.jpg", Demo2.score_b)],
     {| self := Demo2.engine; calls := Demo.search_calls 2 |}).
Proof.
  rewrite search_run.
  assert (Eq : query_accepted (config (self Demo2.world)) Demo.query = true)
    by reflexivity.
  rewrite Eq.
  assert (Ek : top_k_rejected
                 (resolve_top_k (config (self Demo2.world)) (PyInt 2)) = false)
    by reflexivity.
  rewrite Ek.
  unfold try_except, search_body, bind, gets, log, lift, getattr_model.
  simpl. unfold torch_topk, topk. simpl.
  fold Demo2.score_a. fold Demo2.score_b.
  destruct demo2_scores as [Ea Eb].
  assert (El : Rltb Demo2.score_a Demo2.score_b = false).
  { apply Rltb_false_iff. rewrite Ea, Eb. lra. }
  unfold sort_desc, enumerate. simpl.
  unfold Demo2.score_a, Demo2.score_b in El. simpl in El.
  rewrite El. reflexivity.
Qed.

Lemma demo2_names_distinct : NoDup Demo2.names.
Proof.
  constructor; [|constructor; [intros [] | constructor]].
  intros [H|[]]. discriminate H.
Qed.

Lemma search_results_distinct_witness :
  NoDup (map fst [(pystr_of_string "a.jpg", Demo2.score_a);
                  (pystr_of_string "b.jpg", Demo2.score_b)]).
Proof.
  exact (@search_results_distinct
           Demo2.env Demo2.world _ Demo.query (PyInt 2) _ Demo2.names
           demo2_search_both eq_refl demo2_names_distinct).
Defined.

(* ====================================================================== *)
(** ** [search] after [cleanup] *)
(* ====================================================================== *)

(** X7: once [cleanup] has run on an engine with a loaded model, [search]
    never returns results again: invalid input is still reported as
    [InvalidQueryError], and on valid input that the tokenizer accepts the
    call raises [SearchError] from the [AttributeError] of the deleted
    attribute [model]. *)
Theorem search_after_cleanup_fails
        (env : Env) (w : World) (m : Model) :
  model (self w) = Bound (Some m) ->
  (forall query top_k results w',
     search env query top_k (snd (cleanup env w)) <> (Ret results, w')) /\
  (forall query top_k tok toks,
     valid_query (config (self w)) query ->
     positive_int (resolve_top_k (config (self w)) top_k) ->
     tokenizer (self w) = Some tok ->
     tok [query] = Ret toks ->
     fst (search env query top_k (snd (cleanup env w)))
     = Raise (ExnFrom SearchError (Exn AttributeError))).
Proof.
  intro Hm.
  assert (Hc : exists tr,
    snd (cleanup env w) = {| self := set_model Deleted (self w); calls := tr |}).
  { unfold cleanup, bind, getattr_model. rewrite Hm.
    unfold delattr_model, modify. simpl.
    destruct (cuda_is_available env); simpl; eexists; reflexivity. }
  destruct Hc as [tr Hc]. rewrite Hc. split.
  - intros query top_k results w' H.
    apply search_Ret in H. destruct H as [_ [_ H]].
    assert (Hbody : forall k w1,
      fst (search_body env query k
             {| self := set_model Deleted (self w); calls := w1 |})
      <> Ret results).
    { intros k w1. unfold search_body, bind, gets, log, lift, getattr_model.
      simpl.
      destruct (match tokenizer (self w) with
                | Some t => t
                | None => open_clip_tokenize env
                end [query]); simpl; discriminate. }
    eapply Hbody. rewrite H. reflexivity.
  - intros query top_k tok toks Hq Hk Htok Hrun.
    rewrite search_run. simpl.
    apply query_accepted_iff in Hq. rewrite Hq.
    apply top_k_rejected_false_iff in Hk. rewrite Hk.
    unfold try_except, search_body, bind, gets, log, lift, getattr_model.
    simpl. rewrite Htok, Hrun. reflexivity.
Qed.

Lemma search_after_cleanup_fails_witness :
  fst (search Demo.env Demo.query (PyInt 1)
         (snd (cleanup Demo.env Demo.world)))
  = Raise (ExnFrom SearchError (Exn AttributeError)).
Proof.
  apply (proj2 (@search_after_cleanup_fails
                  Demo.env Demo.world Demo.the_model eq_refl))
    with (tok := Demo.the_tokenizer) (toks := [[49406; 49407]%Z]).
  - exact demo_valid_query.
  - exists 1%Z. split; [reflexivity | lia].
  - reflexivity.
  - reflexivity.
Defined.

(* ====================================================================== *)
(** ** Whitespace around the query *)
(* ====================================================================== *)

Lemma lstrip_all_space (s : pystr) : all_space s -> lstrip s = [].
Proof.
  induction 1 as [|c s Hc _ IH]; simpl; [reflexivity|]. rewrite Hc. exact IH.
Qed.

Lemma lstrip_app_space (pre s : pystr) :
  all_space pre -> lstrip (pre ++ s) = lstrip s.
Proof.
  induction 1 as [|c pre Hc _ IH]; simpl; [reflexivity|]. rewrite Hc. exact IH.
Qed.

Lemma strip_padding (pre s post : pystr) :
  all_space pre -> all_space post -> strip (pre ++ s ++ post) = strip s.
Proof.
  intros Hpre Hpost. unfold strip, rstrip.
  rewrite lstrip_app_space by exact Hpre. f_equal.
  assert (Hrev : all_space (rev post)) by (apply Forall_rev; exact Hpost).
  induction s as [|c s IH]; simpl.
  - rewrite (lstrip_all_space Hpost). reflexivity.
  - destruct (isspace c); [exact IH|].
    change (c :: s ++ post) with ((c :: s) ++ post).
    rewrite rev_app_distr. apply lstrip_app_space. exact Hrev.
Qed.

(** X8: whitespace around a query does not count: a query padded with
    whitespace on either side passes [_validate_query] exactly when the
    unpadded query does, and [search] reports [InvalidQueryError] for the
    one exactly when it does for the other. *)
Theorem validation_ignores_padding
        (env : Env) (w : World) (pre s post : pystr) (top_k : pyval) :
  all_space pre -> all_space post ->
  _validate_query (PyStr (pre ++ s ++ post)) w = _validate_query (PyStr s) w
  /\ (fst (search env (PyStr (pre ++ s ++ post)) top_k w)
      = Raise (Exn InvalidQueryError)
      <-> fst (search env (PyStr s) top_k w) = Raise (Exn InvalidQueryError)).
Proof.
  intros Hpre Hpost.
  assert (Hacc : forall cfg,
    query_accepted cfg (PyStr (pre ++ s ++ post))
    = query_accepted cfg (PyStr s)).
  { intro cfg. unfold query_accepted.
    rewrite (strip_padding s Hpre Hpost). reflexivity. }
  split.
  - rewrite !validate_query_run, Hacc. reflexivity.
  - rewrite !search_run, Hacc.
    destruct (query_accepted (config (self w)) (PyStr s)); [|tauto].
    destruct (top_k_rejected (resolve_top_k (config (self w)) top_k));
      [tauto|].
    unfold try_except.
    destruct (search_body env (PyStr (pre ++ s ++ post)) _ w) as [[r1|e1] w1];
      destruct (search_body env (PyStr s) _ w) as [[r2|e2] w2]; simpl.
    + split; discriminate.
    + destruct (isinstance_exn e2 Exception) eqn:E2; simpl.
      * split; discriminate.
      * split; [discriminate|]. intro H. inversion H; subst. discriminate.
    + destruct (isinstance_exn e1 Exception) eqn:E1; simpl.
      * split; discriminate.
      * split; [|discriminate]. intro H. inversion H; subst. discriminate.
    + destruct (isinstance_exn e1 Exception) eqn:E1;
        destruct (isinstance_exn e2 Exception) eqn:E2; simpl;
        split; intro H; try discriminate;
        inversion H; subst; discriminate.
Qed.

Lemma validation_ignores_padding_witness :
  _validate_query (PyStr (pystr_of_string "  " ++ pystr_of_string "a"
                            ++ pystr_of_string "   ")) Demo.world
  = _validate_query (PyStr (pystr_of_string "a")) Demo.world.
Proof.
  apply (@validation_ignores_padding Demo.env Demo.world
           (pystr_of_string "  ") (pystr_of_string "a")
           (pystr_of_string "   ") (PyInt 5)).
  - repeat constructor.
  - repeat constructor.
Defined.

(* ====================================================================== *)
(** ** What construction leaves in the engine *)
(* ====================================================================== *)


Lemma init_Ret_inv (env : Env) (cfg0 : option Config) (e : Engine) :
  __init__ env cfg0 = Ret e ->
  let cfg := config_of env cfg0 in
  exists dev arr names m tok,
    torch_device env (DEVICE cfg) = Ret dev /\
    validate env cfg = true /\
    np_load_embeddings env (EMBEDDINGS_DIR cfg) = Ret arr /\
    np_load_filenames env (EMBEDDINGS_DIR cfg) = Ret names /\
    List.length (nd_rows arr) = List.length names /\
    create_model_and_transforms env (MODEL_NAME cfg) (PRETRAINED cfg)
      (DEVICE cfg) = Ret m /\
    (get_tokenizer env (tokenizer_name cfg) = Ret tok \/
     tok = open_clip_tokenize env) /\
    to_device env arr dev (device_dtype cfg dev) = Ret tt /\
    e = {| config := cfg;
           model := Bound (Some m);
           tokenizer := Some tok;
           image_embeddings := Some arr;
           image_filenames := Some names;
           image_embeddings_t := Some (stored_tensor cfg dev arr);
           device := dev |}.
Proof.
  unfold __init__. fold (config_of env cfg0). cbv zeta.
  set (cfg := config_of env cfg0). intro H.
  destruct (torch_device env (DEVICE cfg)) as [dev|] eqn:Ed; [|discriminate].
  revert H. unfold _initialize, bind, gets. simpl.
  destruct (validate env cfg) eqn:Ev; simpl; [|discriminate].
  unfold try_except, _initialize_body, bind, lift, modify, gets, raise, ret.
  destruct (np_load_embeddings env (EMBEDDINGS_DIR cfg)) as [arr|x] eqn:E1.
  2:{ destruct (isinstance_exn x Exception); discriminate. }
  destruct (np_load_filenames env (EMBEDDINGS_DIR cfg)) as [names|x] eqn:E2.
  2:{ destruct (isinstance_exn x Exception); discriminate. }
  simpl.
  destruct (Nat.eqb (List.length (nd_rows arr)) (List.length names)) eqn:E3;
    simpl; [|discriminate].
  apply Nat.eqb_eq in E3.
  destruct (create_model_and_transforms env (MODEL_NAME cfg) (PRETRAINED cfg)
              (DEVICE cfg)) as [m|x] eqn:E4.
  2:{ destruct (isinstance_exn x Exception); discriminate. }
  simpl. destruct (eval m) as [[]|x] eqn:E5.
  2:{ destruct (isinstance_exn x Exception); discriminate. }
  simpl.
  assert (Hraise : forall (x : exn) (w : World),
    match (if isinstance_exn x Exception
           then (@Raise unit (ExnFrom InitializationError x), w)
           else (Raise x, w)) with
    | (Ret _, w') => Ret (self w')
    | (Raise e1, _) => Raise e1
    end <> Ret e).
  { intros x w. destruct (isinstance_exn x Exception); discriminate. }
  destruct (get_tokenizer env (tokenizer_name cfg)) as [tok|x] eqn:E6;
    [ pose (tk := tok)
    | destruct (isinstance_exn x Exception) eqn:E7;
      [ pose (tk := open_clip_tokenize env)
      | simpl; rewrite E7; discriminate ]];
    simpl; fold (tensor_of cfg dev arr);
    (destruct (to_device env arr dev (device_dtype cfg dev)) as [[]|x8] eqn:E8;
     [| intro H; exfalso; exact (Hraise _ _ H) ]);
    unfold stored_tensor;
    (destruct (NORMALIZE_EMBEDDINGS cfg) eqn:E9;
     [ destruct (normalize_dim1 env (tensor_of cfg dev arr)) as [[]|x10] eqn:E10;
       [| intro H; exfalso; exact (Hraise _ _ H) ] |]);
    simpl; intro H; inversion H; subst e;
    exists dev, arr, names, m, tk;
    repeat (split; [assumption || reflexivity|]);
    (split; [first [left; reflexivity | right; reflexivity]|]);
    (split; [assumption | reflexivity]).
Qed.

(** X9: a constructed engine serves the snapshot it loaded: it keeps the
    loaded array, its identifiers are the loaded identifiers, its tensor
    has the shape of the loaded array, one row per identifier, and
    [num_images] is the number of identifiers. *)
Theorem constructed_engine_serves_the_snapshot
        (env : Env) (cfg0 : option Config) (e : Engine) :
  __init__ env cfg0 = Ret e ->
  exists arr names t,
    np_load_embeddings env (EMBEDDINGS_DIR (config_of env cfg0)) = Ret arr /\
    np_load_filenames env (EMBEDDINGS_DIR (config_of env cfg0)) = Ret names /\
    image_embeddings e = Some arr /\
    image_filenames e = Some names /\
    image_embeddings_t e = Some t /\
    t_dim t = nd_dim arr /\
    List.length (t_rows t) = List.length (nd_rows arr) /\
    List.length (t_rows t) = List.length names /\
    forall tr, fst (num_images {| self := e; calls := tr |}) = Ret (len names).
Proof.
  intro H. apply init_Ret_inv in H.
  destruct H as [dev [arr [names [m [tok
    [_ [_ [Ha [Hn [Hlen [_ [_ [_ He]]]]]]]]]]]]].
  exists arr, names. eexists. subst e. simpl.
  repeat (split; [reflexivity || assumption|]).
  assert (Hrows : List.length
                    (t_rows (stored_tensor (config_of env cfg0) dev arr))
                  = List.length (nd_rows arr)).
  { unfold stored_tensor, normalize_rows, tensor_of.
    destruct (NORMALIZE_EMBEDDINGS (config_of env cfg0)); simpl;
      [apply length_map | reflexivity]. }
  split.
  - unfold stored_tensor, normalize_rows, tensor_of.
    destruct (NORMALIZE_EMBEDDINGS (config_of env cfg0)); reflexivity.
  - split; [exact Hrows|]. split; [rewrite Hrows; exact Hlen|].
    intro tr. reflexivity.
Qed.

Lemma constructed_engine_serves_the_snapshot_witness :
  exists arr names t,
    np_load_embeddings Demo2.env
      (EMBEDDINGS_DIR (config_of Demo2.env None)) = Ret arr /\
    np_load_filenames Demo2.env
      (EMBEDDINGS_DIR (config_of Demo2.env None)) = Ret names /\
    image_embeddings Demo2.engine = Some arr /\
    image_filenames Demo2.engine = Some names /\
    image_embeddings_t Demo2.engine = Some t /\
    t_dim t = nd_dim arr /\
    List.length (t_rows t) = List.length (nd_rows arr) /\
    List.length (t_rows t) = List.length names /\
    forall tr,
      fst (num_images {| self := Demo2.engine; calls := tr |})
      = Ret (len names).
Proof.
  apply (@constructed_engine_serves_the_snapshot Demo2.env None Demo2.engine).
  exact demo2_init.
Defined.

(** X10: a tokenizer lookup that fails with an [Exception] never makes
    construction fail: construction goes exactly as if the lookup had
    returned the default tokenizer [open_clip.tokenize]. *)
Theorem init_falls_back_to_default_tokenizer
        (env : Env) (cfg0 : option Config) (x : exn) :
  get_tokenizer env (tokenizer_name (config_of env cfg0)) = Raise x ->
  isinstance_exn x Exception = true ->
  __init__ env cfg0
  = __init__ (with_get_tokenizer (fun _ => Ret (open_clip_tokenize env)) env)
      cfg0.
Proof.
  intros Hx He. unfold __init__. simpl.
  fold (config_of env cfg0). set (cfg := config_of env cfg0) in *.
  destruct (torch_device env (DEVICE cfg)) as [dev|]; [|reflexivity].
  unfold _initialize, bind, gets. simpl.
  change (validate (with_get_tokenizer
                      (fun _ => Ret (open_clip_tokenize env)) env) cfg)
    with (validate env cfg).
  destruct (validate env cfg); simpl; [|reflexivity].
  unfold try_except, _initialize_body, bind, lift, modify, gets, raise, ret.
  change (np_load_embeddings
            (with_get_tokenizer (fun _ => Ret (open_clip_tokenize env)) env)
            (EMBEDDINGS_DIR cfg))
    with (np_load_embeddings env (EMBEDDINGS_DIR cfg)).
  change (np_load_filenames
            (with_get_tokenizer (fun _ => Ret (open_clip_tokenize env)) env)
            (EMBEDDINGS_DIR cfg))
    with (np_load_filenames env (EMBEDDINGS_DIR cfg)).
  destruct (np_load_embeddings env (EMBEDDINGS_DIR cfg)) as [arr|];
    [|reflexivity].
  destruct (np_load_filenames env (EMBEDDINGS_DIR cfg)) as [names|];
    [|reflexivity].
  simpl.
  destruct (Nat.eqb (List.length (nd_rows arr)) (List.length names));
    simpl; [|reflexivity].
  destruct (create_model_and_transforms env (MODEL_NAME cfg) (PRETRAINED cfg)
              (DEVICE cfg)) as [m|]; [|reflexivity].
  simpl. destruct (eval m) as [[]|]; [|reflexivity].
  simpl. rewrite Hx, He. reflexivity.
Qed.

Example demo_init_tokenizer_lookup_fails :
  __init__ (with_get_tokenizer (fun _ => Raise (Exn RuntimeError)) Demo.env)
    None
  = Ret Demo.engine.
Proof. reflexivity. Qed.

Lemma init_falls_back_to_default_tokenizer_witness :
  __init__ (with_get_tokenizer (fun _ => Raise (Exn RuntimeError)) Demo.env)
    None
  = __init__
      (with_get_tokenizer
         (fun _ => Ret (open_clip_tokenize
                          (with_get_tokenizer
                             (fun _ => Raise (Exn RuntimeError)) Demo.env)))
         (with_get_tokenizer (fun _ => Raise (Exn RuntimeError)) Demo.env))
      None.
Proof.
  apply (@init_falls_back_to_default_tokenizer
           (with_get_tokenizer (fun _ => Raise (Exn RuntimeError)) Demo.env)
           None (Exn RuntimeError)).
  - reflexivity.
  - reflexivity.
Defined.

(* ====================================================================== *)
(** ** The module-level engine *)
(* ====================================================================== *)

(** Once a tokenizer is bound, [search] does not look at the environment. *)
Lemma search_env_irrelevant (env1 env2 : Env) (query top_k : pyval)
      (w : World) (tok : Tokenizer) :
  tokenizer (self w) = Some tok ->
  search env1 query top_k w = search env2 query top_k w.
Proof.
  intro Htok. rewrite !search_run.
  destruct (query_accepted (config (self w)) query); [|reflexivity].
  destruct (top_k_rejected (resolve_top_k (config (self w)) top_k));
    [reflexivity|].
  unfold try_except, search_body, bind, gets. simpl. rewrite Htok.
  reflexivity.
Qed.

Lemma search_keeps_self (env : Env) (query top_k : pyval) (w : World) :
  self (snd (search env query top_k w)) = self w.
Proof.
  apply (@readonly_run _ (search env query top_k) w
           (readonly_search env query top_k)).
Qed.

(** X11: the module holds one engine: once [get_engine] has returned an
    engine, every later [search_images] call, whatever its arguments and
    whatever the environment has become, leaves that same engine in
    [_engine], and [get_engine] keeps returning it. *)
Theorem search_images_keeps_the_engine
        (env : Env) (g g1 : Globals) (e : Engine) :
  get_engine env g = (Ret e, g1) ->
  forall env2 query top_k,
    _engine (snd (search_images env2 query top_k g1)) = Some e /\
    fst (get_engine env2 (snd (search_images env2 query top_k g1))) = Ret e.
Proof.
  intros H env2 query top_k.
  assert (Hg1 : _engine g1 = Some e).
  { unfold get_engine in H. destruct (_engine g) as [e0|] eqn:Eg.
    - inversion H; subst. exact Eg.
    - destruct (__init__ env None); inversion H; subst. reflexivity. }
  assert (Hs : _engine (snd (search_images env2 query top_k g1)) = Some e).
  { unfold search_images, get_engine. rewrite Hg1.
    destruct (search env2 query top_k {| self := e; calls := trace g1 |})
      as [r w1] eqn:Es. simpl.
    pose proof (search_keeps_self env2 query top_k
                  {| self := e; calls := trace g1 |}) as Hk.
    rewrite Es in Hk. simpl in Hk. rewrite Hk. reflexivity. }
  split; [exact Hs|].
  unfold get_engine at 1. rewrite Hs. reflexivity.
Qed.

Lemma search_images_keeps_the_engine_witness :
  _engine (snd (search_images Demo.env_no_model Demo.query (PyInt 1)
                  {| _engine := Some Demo.engine; trace := [] |}))
  = Some Demo.engine.
Proof.
  apply (@search_images_keeps_the_engine
           Demo.env {| _engine := None; trace := [] |}
           {| _engine := Some Demo.engine; trace := [] |} Demo.engine).
  reflexivity.
Defined.

(** X12: the snapshot is read once per process: after the first
    successful [get_engine] on a fresh module, what [search_images]
    returns is what that engine's [search] returns, whatever the files,
    the model loader and the tokenizer registry of the environment have
    become since. *)
Theorem search_images_reads_the_snapshot_once
        (env : Env) (g g1 : Globals) (e : Engine) :
  _engine g = None ->
  get_engine env g = (Ret e, g1) ->
  forall env2 query top_k,
    fst (search_images env2 query top_k g1)
    = fst (search env query top_k {| self := e; calls := trace g1 |}).
Proof.
  intros Hg H env2 query top_k.
  unfold get_engine in H. rewrite Hg in H.
  destruct (__init__ env None) as [e0|] eqn:Ei; inversion H; subst.
  destruct (init_Ready _ _ Ei) as [[m [tok [fns [t [_ [Htok _]]]]]] _].
  unfold search_images, get_engine. simpl.
  rewrite (@search_env_irrelevant env2 env query top_k
             {| self := e; calls := trace g |} tok Htok).
  destruct (search env query top_k {| self := e; calls := trace g |}).
  reflexivity.
Qed.

Lemma search_images_reads_the_snapshot_once_witness :
  fst (search_images Demo.env_no_names Demo.query (PyInt 1)
         {| _engine := Some Demo.engine; trace := [] |})
  = fst (search Demo.env Demo.query (PyInt 1) Demo.world).
Proof.
  apply (@search_images_reads_the_snapshot_once
           Demo.env {| _engine := None; trace := [] |}
           {| _engine := Some Demo.engine; trace := [] |} Demo.engine).
  - reflexivity.
  - reflexivity.
Defined.

(** X13: a failed construction is not remembered: on a fresh module whose
    engine cannot be constructed, [search_images] raises the constructor's
    exception before it looks at the query, stores nothing, and the next
    [get_engine] constructs again. *)
Theorem search_images_retries_construction
        (env : Env) (g : Globals) (x : exn) :
  _engine g = None ->
  __init__ env None = Raise x ->
  forall query top_k,
    search_images env query top_k g = (Raise x, g) /\
    forall env2 e,
      __init__ env2 None = Ret e ->
      fst (get_engine env2 (snd (search_images env query top_k g))) = Ret e.
Proof.
  intros Hg Hi query top_k.
  assert (Hs : search_images env query top_k g = (Raise x, g)).
  { unfold search_images, get_engine. rewrite Hg, Hi. reflexivity. }
  split; [exact Hs|].
  intros env2 e He. rewrite Hs. simpl.
  unfold get_engine. rewrite Hg, He. reflexivity.
Qed.

Lemma search_images_retries_construction_witness :
  search_images Demo.env_no_names (PyInt 42) (PyInt 0)
    {| _engine := None; trace := [] |}
  = (Raise (Exn InitializationError), {| _engine := None; trace := [] |}).
Proof.
  apply (@search_images_retries_construction
           Demo.env_no_names {| _engine := None; trace := [] |}
           (Exn InitializationError)).
  - reflexivity.
  - reflexivity.
Defined.

(* ====================================================================== *)
(** ** The command-line check and construction *)
(* ====================================================================== *)

(** What the exit codes 0, 1 and 2 of [sanity_check] stand for. *)
Lemma sanity_check_codes (env : Env) :
  let cfg := Config_class env in
  (sanity_check env = Ret 1%Z ->
   match fs env (EMBEDDINGS_DIR cfg) with
   | None => True
   | Some d => image_embeddings_npy d = None \/ image_filenames_npy d = None
   end) /\
  (sanity_check env = Ret 0%Z \/ sanity_check env = Ret 2%Z ->
   exists d f emb fns,
     fs env (EMBEDDINGS_DIR cfg) = Some d /\
     image_embeddings_npy d = Some f /\
     image_filenames_npy d <> None /\
     load_mmap f = Ret emb /\
     np_load_filenames env (EMBEDDINGS_DIR cfg) = Ret fns /\
     (sanity_check env = Ret 0%Z ->
      List.length (nd_rows emb) = List.length fns) /\
     (sanity_check env = Ret 2%Z ->
      List.length (nd_rows emb) <> List.length fns)).
Proof.
  intro cfg. unfold sanity_check. fold cfg.
  destruct (fs env (EMBEDDINGS_DIR cfg)) as [d|] eqn:Ed; simpl.
  2:{ split; [auto|]. intros [H|H]; discriminate. }
  destruct (image_embeddings_npy d) as [f|] eqn:Ef; simpl.
  2:{ split; [auto|]. intros [H|H]; discriminate. }
  destruct (image_filenames_npy d) as [nf|] eqn:En; simpl.
  2:{ split; [auto|]. intros [H|H]; discriminate. }
  destruct (load_mmap f) as [emb|x] eqn:El.
  2:{ split; destruct (isinstance_exn x Exception); try discriminate;
        intros [H|H]; discriminate. }
  destruct (np_load_filenames env (EMBEDDINGS_DIR cfg)) as [fns|x] eqn:Ep.
  2:{ split; destruct (isinstance_exn x Exception); try discriminate;
        intros [H|H]; discriminate. }
  destruct (Nat.eqb (List.length (nd_rows emb)) (List.length fns)) eqn:Eq.
  - split; [discriminate|]. intros _. apply Nat.eqb_eq in Eq.
    exists d, f, emb, fns.
    repeat split; try assumption; try congruence.
  - split; [discriminate|]. intros _. apply Nat.eqb_neq in Eq.
    exists d, f, emb, fns.
    repeat split; try assumption; try congruence.
Qed.

(** X14: when the command-line check answers 0 for a plain [Config()],
    the snapshot files are no obstacle to construction: once the device
    string is accepted, the model loads, the tokenizer lookup returns or
    fails with an [Exception], and the embeddings are converted to a tensor
    on the device, [CLIPSearchEngine()] is constructed. *)
Theorem sanity_check_ok_then_engine_constructs
        (env : Env) (dev : Device) (m : Model) :
  let cfg := Config_class env in
  EMBEDDINGS_DIR cfg = cls_EMBEDDINGS_DIR cfg ->
  sanity_check env = Ret 0%Z ->
  torch_device env (DEVICE cfg) = Ret dev ->
  create_model_and_transforms env (MODEL_NAME cfg) (PRETRAINED cfg)
    (DEVICE cfg) = Ret m ->
  eval m = Ret tt ->
  (forall x, get_tokenizer env (tokenizer_name cfg) = Raise x ->
             isinstance_exn x Exception = true) ->
  ~ tensor_fails env cfg dev ->
  exists e, __init__ env None = Ret e.
Proof.
  intros cfg Hwf Hs Hdev Hm Hev Htok Hten.
  destruct (proj2 (sanity_check_codes env) (or_introl Hs))
    as [d [f [emb [fns [Hd [Hf [Hn [Hl [Hp [Hlen _]]]]]]]]]].
  fold cfg in Hd, Hp. specialize (Hlen Hs).
  unfold __init__. simpl. fold cfg. rewrite Hdev.
  unfold _initialize, bind, gets. simpl.
  assert (Hv : validate env cfg = true).
  { unfold validate. rewrite <- Hwf, Hd, Hf.
    destruct (image_filenames_npy d); [reflexivity | contradiction]. }
  rewrite Hv. simpl.
  unfold try_except, _initialize_body, bind, lift, modify, gets, raise, ret.
  assert (He : np_load_embeddings env (EMBEDDINGS_DIR cfg) = Ret emb).
  { unfold np_load_embeddings. rewrite Hd, Hf, Hl. reflexivity. }
  assert (Hto : to_device env emb dev (device_dtype cfg dev) = Ret tt).
  { destruct (to_device env emb dev (device_dtype cfg dev)) as [[]|x] eqn:E;
      [reflexivity|].
    exfalso. apply Hten. exists emb. split; [exact He|]. left.
    exists x. exact E. }
  assert (Hnorm : NORMALIZE_EMBEDDINGS cfg = true ->
                  normalize_dim1 env (tensor_of cfg dev emb) = Ret tt).
  { intro Hcfg.
    destruct (normalize_dim1 env (tensor_of cfg dev emb)) as [[]|x] eqn:E;
      [reflexivity|].
    exfalso. apply Hten. exists emb. split; [exact He|]. right.
    split; [exact Hcfg|]. exists x. exact E. }
  rewrite He, Hp. simpl.
  apply Nat.eqb_eq in Hlen. rewrite Hlen. simpl.
  rewrite Hm. simpl. rewrite Hev. simpl.
  unfold tensor_of in Hnorm.
  destruct (get_tokenizer env (tokenizer_name cfg)) as [tok|x] eqn:Et;
    simpl; [| rewrite (Htok x eq_refl); simpl ];
    rewrite Hto;
    (destruct (NORMALIZE_EMBEDDINGS cfg); [rewrite (Hnorm eq_refl)|]);
    eexists; reflexivity.
Qed.

(** The check reads the two arrays and compares their lengths only: it
    answers 0 on the snapshot whose embeddings are strings, which
    construction rejects. *)
Example demo_sanity_check_strings :
  sanity_check Demo.env_strings = Ret 0%Z /\
  __init__ Demo.env_strings None
  = Raise (ExnFrom InitializationError (Exn ValueError)).
Proof. split; reflexivity. Qed.

Lemma sanity_check_ok_then_engine_constructs_witness :
  exists e, __init__ Demo2.env None = Ret e.
Proof.
  apply (@sanity_check_ok_then_engine_constructs
           Demo2.env Demo.cpu Demo.the_model).
  - reflexivity.
  - reflexivity.
  - reflexivity.
  - reflexivity.
  - reflexivity.
  - intros x H. discriminate H.
  - intros [arr [_ [[x H] | [_ [x H]]]]]; discriminate H.
Defined.

(** X15: when the command-line check answers 1 (a file is missing) or 2
    (the counts differ) for a plain [Config()], [CLIPSearchEngine()] raises
    [InitializationError] once the device string is accepted. *)
Theorem sanity_check_failure_then_engine_fails
        (env : Env) (dev : Device) :
  let cfg := Config_class env in
  EMBEDDINGS_DIR cfg = cls_EMBEDDINGS_DIR cfg ->
  sanity_check env = Ret 1%Z \/ sanity_check env = Ret 2%Z ->
  torch_device env (DEVICE cfg) = Ret dev ->
  raises_InitializationError (__init__ env None).
Proof.
  intros cfg Hwf Hs Hdev.
  unfold __init__. simpl. fold cfg. rewrite Hdev.
  unfold _initialize, bind, gets, raise. simpl.
  destruct Hs as [Hs|Hs].
  - pose proof (proj1 (sanity_check_codes env) Hs) as Habs. fold cfg in Habs.
    assert (Hv : validate env cfg = false).
    { apply validate_false_iff. unfold required_file_absent.
      rewrite <- Hwf. exact Habs. }
    rewrite Hv. simpl. eexists. split; reflexivity.
  - destruct (proj2 (sanity_check_codes env) (or_intror Hs))
      as [d [f [emb [fns [Hd [Hf [Hn [Hl [Hp [_ Hneq]]]]]]]]]].
    fold cfg in Hd, Hp. specialize (Hneq Hs).
    destruct (validate env cfg); simpl; [|eexists; split; reflexivity].
    unfold try_except, _initialize_body, bind, lift, modify, raise.
    assert (He : np_load_embeddings env (EMBEDDINGS_DIR cfg) = Ret emb).
    { unfold np_load_embeddings. rewrite Hd, Hf, Hl. reflexivity. }
    rewrite He, Hp. simpl.
    apply Nat.eqb_neq in Hneq. rewrite Hneq. simpl.
    eexists. split; reflexivity.
Qed.

Example demo_sanity_check_missing_file :
  sanity_check Demo.env_no_names = Ret 1%Z.
Proof. reflexivity. Qed.

Lemma sanity_check_failure_then_engine_fails_witness :
  raises_InitializationError (__init__ Demo.env_no_names None).
Proof.
  apply (@sanity_check_failure_then_engine_fails Demo.env_no_names Demo.cpu).
  - reflexivity.
  - left. reflexivity.
  - reflexivity.
Defined.

(* ====================================================================== *)
(** ** The preview grid *)
(* ====================================================================== *)

Lemma enumerate_from_nth (B : Type) (l : list B) (s : Z) (i : nat)
      (p : Z * B) :
  nth_error (enumerate_from s l) i = Some p ->
  fst p = (s + Z.of_nat i)%Z /\ nth_error l i = Some (snd p).
Proof.
  revert s i. induction l as [|x l IH]; intros s [|i] H; simpl in *;
    try discriminate.
  - inversion H; subst. simpl. split; [lia | reflexivity].
  - apply IH in H. destruct H as [H1 H2]. split; [lia | exact H2].
Qed.

Lemma enumerate_from_length (B : Type) (l : list B) (s : Z) :
  List.length (enumerate_from s l) = List.length l.
Proof.
  revert s. induction l as [|x l IH]; intro s; simpl; [reflexivity|].
  rewrite IH. reflexivity.
Qed.

Lemma enumerate_from_snd (B : Type) (l : list B) (s : Z) :
  map snd (enumerate_from s l) = l.
Proof.
  revert s. induction l as [|x l IH]; intro s; simpl; [reflexivity|].
  rewrite IH. reflexivity.
Qed.

(** The selection [results[:max(1, min(len(results), cols * 2))]] is the
    first [2 * cols] results when [cols] is positive. *)
Lemma preview_selection (results : list (pystr * R)) (cols : Z) :
  (0 < cols)%Z ->
  firstn (Z.to_nat (Z.max 1 (Z.min (len results) (cols * 2)))) results
  = firstn (Z.to_nat (cols * 2)) results.
Proof.
  intro Hc. unfold len.
  destruct (Z_le_gt_dec (cols * 2) (Z.of_nat (List.length results))) as [H|H].
  - rewrite Z.min_r by lia. rewrite Z.max_r by lia. reflexivity.
  - rewrite Z.min_l by lia.
    destruct results as [|r results]; [rewrite !firstn_nil; reflexivity|].
    rewrite Z.max_r by (simpl List.length; lia).
    rewrite !firstn_all2; try reflexivity; simpl List.length in *; lia.
Qed.

(** What a saved grid is made of. *)
Lemma preview_grid_saved (loads : pystr -> bool) (results : list (pystr * R))
      (cols thumb : Z) (g : Grid) :
  _preview_grid loads results cols thumb = GridSaved g ->
  let images :=
    previewable loads
      (firstn (Z.to_nat (Z.max 1 (Z.min (len results) (cols * 2)))) results) in
  cols <> 0%Z /\
  grid_w g = (cols * thumb)%Z /\
  grid_h g = ((len images + cols - 1) / cols * (thumb + 24))%Z /\
  grid_cells g =
    map (fun ix =>
           {| cell_x := (fst ix mod cols * thumb)%Z;
              cell_y := (fst ix / cols * (thumb + 24))%Z;
              cell_label := snd ix |})
        (enumerate_from 0 images).
Proof.
  unfold _preview_grid. cbv zeta.
  destruct (firstn _ results) as [|r sel]; [discriminate|].
  destruct (previewable loads (r :: sel)) as [|im images]; [discriminate|].
  destruct (cols =? 0)%Z eqn:E; [discriminate|].
  destruct (_ || _); [discriminate|].
  apply Z.eqb_neq in E. intro H. inversion H; subst. simpl. auto.
Qed.

(** X16: with a positive number of columns and a non-negative thumbnail
    size, every cell of a saved preview grid lies inside the canvas: the
    thumbnail square and the label strip under it do not stick out. *)
Theorem preview_cells_inside_canvas
        (loads : pystr -> bool) (results : list (pystr * R))
        (cols thumb : Z) (g : Grid) :
  (0 < cols)%Z -> (0 <= thumb)%Z ->
  _preview_grid loads results cols thumb = GridSaved g ->
  forall c, In c (grid_cells g) ->
    (0 <= cell_x c /\ cell_x c + thumb <= grid_w g /\
     0 <= cell_y c /\ cell_y c + thumb + 24 <= grid_h g)%Z.
Proof.
  intros Hc Ht H c Hin.
  apply preview_grid_saved in H. cbv zeta in H.
  destruct H as [_ [Hw [Hh Hcells]]].
  set (images := previewable loads _) in *.
  rewrite Hcells in Hin. apply in_map_iff in Hin.
  destruct Hin as [[i x] [<- Hix]].
  apply In_nth_error in Hix. destruct Hix as [n Hn].
  assert (Hlt : n < List.length images).
  { rewrite <- (enumerate_from_length images 0).
    apply nth_error_Some. rewrite Hn. discriminate. }
  apply enumerate_from_nth in Hn. destruct Hn as [Hi _]. simpl in Hi.
  simpl. rewrite Hw, Hh.
  assert (Hi0 : (0 <= i < len images)%Z) by (unfold len; lia).
  pose proof (Z.mod_pos_bound i cols Hc) as Hm.
  pose proof (Z.div_pos i cols (proj1 Hi0) Hc) as Hd.
  assert (Hrow : (i / cols + 1 <= (len images + cols - 1) / cols)%Z).
  { replace (len images + cols - 1)%Z with ((len images - 1) + 1 * cols)%Z
      by ring.
    rewrite Z.div_add by lia.
    assert (i / cols <= (len images - 1) / cols)%Z
      by (apply Z.div_le_mono; lia).
    lia. }
  repeat split; nia.
Qed.

Lemma preview_cells_inside_canvas_witness :
  (0 <= 0 /\ 0 + 256 <= 768 /\ 0 <= 0 /\ 0 + 256 + 24 <= 280)%Z.
Proof.
  apply (@preview_cells_inside_canvas
           (fun _ => true) [(pystr_of_string "a.jpg", Demo.score)] 3 256
           {| grid_w := 768; grid_h := 280;
              grid_cells :=
                [{| cell_x := 0; cell_y := 0;
                    cell_label := (pystr_of_string "a.jpg", Demo.score) |}] |}
           ltac:(lia) ltac:(lia) eq_refl
           {| cell_x := 0; cell_y := 0;
              cell_label := (pystr_of_string "a.jpg", Demo.score) |}).
  left. reflexivity.
Defined.

(** X17: in a saved preview grid no two cells overlap: two different
    cells are side by side or one is below the other. *)
Theorem preview_cells_disjoint
        (loads : pystr -> bool) (results : list (pystr * R))
        (cols thumb : Z) (g : Grid) :
  (0 < cols)%Z -> (0 <= thumb)%Z ->
  _preview_grid loads results cols thumb = GridSaved g ->
  forall i j a b,
    nth_error (grid_cells g) i = Some a ->
    nth_error (grid_cells g) j = Some b ->
    i <> j ->
    (cell_x a + thumb <= cell_x b \/ cell_x b + thumb <= cell_x a \/
     cell_y a + thumb + 24 <= cell_y b \/ cell_y b + thumb + 24 <= cell_y a)%Z.
Proof.
  intros Hc Ht H i j a b Ha Hb Hij.
  apply preview_grid_saved in H. cbv zeta in H.
  destruct H as [_ [_ [_ Hcells]]].
  set (images := previewable loads _) in *.
  rewrite Hcells in Ha, Hb. rewrite nth_error_map in Ha, Hb.
  destruct (nth_error (enumerate_from 0 images) i) as [[ia xa]|] eqn:Ea;
    [|discriminate].
  destruct (nth_error (enumerate_from 0 images) j) as [[ib xb]|] eqn:Eb;
    [|discriminate].
  simpl in Ha, Hb. inversion Ha; subst a. inversion Hb; subst b. simpl.
  apply enumerate_from_nth in Ea. apply enumerate_from_nth in Eb.
  destruct Ea as [Ea _]. destruct Eb as [Eb _]. simpl in Ea, Eb.
  assert (Hne : ia <> ib) by lia.
  pose proof (Z.div_mod ia cols) as Da. pose proof (Z.div_mod ib cols) as Db.
  pose proof (Z.mod_pos_bound ia cols Hc) as Ma.
  pose proof (Z.mod_pos_bound ib cols Hc) as Mb.
  destruct (Z.eq_dec (ia / cols) (ib / cols)) as [Er|Er].
  - assert (Hm : (ia mod cols <> ib mod cols)%Z).
    { intro Em. apply Hne. rewrite Da, Db by lia. rewrite Er, Em. reflexivity. }
    destruct (Z_lt_le_dec (ia mod cols) (ib mod cols)).
    + left. nia.
    + right. left. nia.
  - destruct (Z_lt_le_dec (ia / cols) (ib / cols)).
    + right. right. left. nia.
    + right. right. right. nia.
Qed.

Lemma preview_cells_disjoint_witness :
  (0 + 256 <= 256 \/ 256 + 256 <= 0 \/
   0 + 256 + 24 <= 0 \/ 0 + 256 + 24 <= 0)%Z.
Proof.
  apply (@preview_cells_disjoint
           (fun _ => true)
           [(pystr_of_string "a.jpg", 1%R); (pystr_of_string "b.jpg", 0%R)]
           3 256
           {| grid_w := 768; grid_h := 280;
              grid_cells :=
                [{| cell_x := 0; cell_y := 0;
                    cell_label := (pystr_of_string "a.jpg", 1%R) |};
                 {| cell_x := 256; cell_y := 0;
                    cell_label := (pystr_of_string "b.jpg", 0%R) |}] |}
           ltac:(lia) ltac:(lia) eq_refl 0 1
           {| cell_x := 0; cell_y := 0;
              cell_label := (pystr_of_string "a.jpg", 1%R) |}
           {| cell_x := 256; cell_y := 0;
              cell_label := (pystr_of_string "b.jpg", 0%R) |}
           eq_refl eq_refl).
  discriminate.
Defined.

(** The canvas of a preview has no negative side when the number of
    columns is positive and the thumbnail size is not negative. *)
Lemma preview_canvas_accepted (n cols thumb : Z) :
  (0 <= n)%Z -> (0 < cols)%Z -> (0 <= thumb)%Z ->
  ((cols * thumb <? 0) || ((n + cols - 1) / cols * (thumb + 24) <? 0))%Z
  = false.
Proof.
  intros Hn Hc Ht. apply orb_false_iff. split; apply Z.ltb_ge.
  - nia.
  - assert (0 <= (n + cols - 1) / cols)%Z by (apply Z.div_pos; lia). nia.
Qed.

(** X18: with a positive number of columns and a positive thumbnail size,
    the preview does nothing for an empty result list, fails when results
    exist and none of the first [2 * cols] can be opened, and otherwise
    composes a grid that shows, in result order, exactly the images that
    can be opened among the first [2 * cols] results, so at most
    [2 * cols] of them. *)
Theorem preview_shows_first_loadable_results
        (loads : pystr -> bool) (results : list (pystr * R))
        (cols thumb : Z) :
  (0 < cols)%Z -> (0 < thumb)%Z ->
  let shown := previewable loads (firstn (Z.to_nat (cols * 2)) results) in
  (_preview_grid loads results cols thumb = NothingToPreview
   <-> results = []) /\
  (_preview_grid loads results cols thumb = NoPreviewableImages
   <-> results <> [] /\ shown = []) /\
  (shown <> [] ->
   exists g,
     _preview_grid loads results cols thumb = GridSaved g /\
     map cell_label (grid_cells g) = shown /\
     (len (grid_cells g) <= cols * 2)%Z).
Proof.
  intros Hc Ht shown. unfold shown. clear shown.
  unfold _preview_grid. cbv zeta.
  rewrite (preview_selection results Hc).
  assert (Hz : (cols =? 0)%Z = false) by (apply Z.eqb_neq; lia).
  rewrite Hz.
  destruct results as [|r results].
  - rewrite firstn_nil. simpl. split; [tauto|]. split.
    + split; [discriminate | intros [H _]; contradiction].
    + intro H. contradiction.
  - assert (Hn : exists n, Z.to_nat (cols * 2) = S n)
      by (exists (Z.to_nat (cols * 2) - 1); lia).
    destruct Hn as [n Hn].
    assert (Hsel : firstn (Z.to_nat (cols * 2)) (r :: results)
                   = r :: firstn n results) by (rewrite Hn; reflexivity).
    rewrite Hsel.
    destruct (previewable loads (r :: firstn n results)) as [|im images]
      eqn:Ep.
    + split; [split; discriminate|]. split.
      * split; [intros _; split; [discriminate | reflexivity] | reflexivity].
      * intro H. contradiction.
    + rewrite (@preview_canvas_accepted (len (im :: images)) cols thumb)
        by (unfold len; lia).
      split; [split; discriminate|]. split.
      * split; [discriminate | intros [_ H]; discriminate].
      * intros _. eexists. split; [reflexivity|]. cbn [grid_cells].
        split.
        -- rewrite map_map.
           erewrite map_ext; [apply enumerate_from_snd|].
           intro ix. reflexivity.
        -- unfold len.
           rewrite length_map, enumerate_from_length.
           assert (Hle : List.length (im :: images)
                         <= List.length (r :: firstn n results)).
           { rewrite <- Ep. unfold previewable. apply filter_length_le. }
           assert (Hf : List.length (r :: firstn n results) <= S n).
           { simpl. pose proof (firstn_le_length n results). lia. }
           simpl in Hle, Hf. simpl List.length. lia.
Qed.

Lemma preview_shows_first_loadable_results_witness :
  exists g,
    _preview_grid
      (fun f => if list_eq_dec N.eq_dec f (pystr_of_string "b.jpg")
                then false else true)
      [(pystr_of_string "a.jpg", 1%R); (pystr_of_string "b.jpg", 0%R);
       (pystr_of_string "c.jpg", 0%R)] 1 256
    = GridSaved g /\
    map cell_label (grid_cells g) = [(pystr_of_string "a.jpg", 1%R)] /\
    (len (grid_cells g) <= 1 * 2)%Z.
Proof.
  apply (proj2 (proj2
           (@preview_shows_first_loadable_results
              (fun f => if list_eq_dec N.eq_dec f (pystr_of_string "b.jpg")
                then false else true)
              [(pystr_of_string "a.jpg", 1%R); (pystr_of_string "b.jpg", 0%R);
               (pystr_of_string "c.jpg", 0%R)]
              1 256 ltac:(lia) ltac:(lia)))).
  discriminate.
Defined.

(* ====================================================================== *)
(** ** The search endpoint *)
(* ====================================================================== *)

Lemma lstrip_length (s : pystr) : List.length (lstrip s) <= List.length s.
Proof.
  induction s as [|c s IH]; simpl; [lia|]. destruct (isspace c); simpl; lia.
Qed.

Lemma strip_length (s : pystr) : (len (strip s) <= len s)%Z.
Proof.
  unfold len, strip, rstrip. rewrite length_rev.
  pose proof (lstrip_length (rev (lstrip s))) as H1.
  rewrite length_rev in H1.
  pose proof (lstrip_length s) as H2. lia.
Qed.

Lemma isinstance_InvalidQueryError (e : exn) :
  isinstance_exn e InvalidQueryError = true ->
  exn_class e = InvalidQueryError.
Proof.
  unfold isinstance_exn. destruct (exn_class e); simpl; intro H;
    try discriminate; reflexivity.
Qed.

(** When [search] raises an [InvalidQueryError], one of its two input
    checks failed. *)
Lemma search_InvalidQueryError (env : Env) (query top_k : pyval)
      (w w' : World) (x : exn) :
  search env query top_k w = (Raise x, w') ->
  isinstance_exn x InvalidQueryError = true ->
  query_accepted (config (self w)) query = false \/
  top_k_rejected (resolve_top_k (config (self w)) top_k) = true.
Proof.
  rewrite search_run. intros H Hx.
  destruct (query_accepted (config (self w)) query); [|auto].
  destruct (top_k_rejected (resolve_top_k (config (self w)) top_k)); [auto|].
  exfalso. revert H. unfold try_except.
  destruct (search_body env query _ w) as [[r|e] w1]; [discriminate|].
  destruct (isinstance_exn e Exception) eqn:Ee.
  - unfold raise. intro H. inversion H; subst. discriminate.
  - intro H. inversion H; subst.
    apply isinstance_InvalidQueryError in Hx.
    unfold isinstance_exn in Ee. rewrite Hx in Ee. discriminate.
Qed.

(** X19: for a request that satisfies the schema of [SearchRequest], on an
    engine whose configuration allows 512 characters and has a positive
    default [top_k] (as the defaults do), the endpoint answers 400 exactly
    when the query stripped of surrounding whitespace is shorter than the
    minimum length. *)
Theorem api_search_400_iff_stripped_query_too_short
        (env : Env) (request : Api.SearchRequest) (app : Api.App)
        (e : Engine) :
  Api.search_engine app = Some e ->
  Api.SearchRequest_valid request = true ->
  (512 <= MAX_QUERY_LENGTH (config e))%Z ->
  (1 <= DEFAULT_TOP_K (config e))%Z ->
  (fst (Api.search env request app) = Api.HTTPException 400
   <-> (len (strip (Api.query request)) < MIN_QUERY_LENGTH (config e))%Z).
Proof.
  intros He Hv Hmax Hdef.
  unfold Api.SearchRequest_valid in Hv.
  apply andb_prop in Hv. destruct Hv as [Hq Hk].
  apply andb_prop in Hq. destruct Hq as [_ Hq]. apply Z.leb_le in Hq.
  pose proof (strip_length (Api.query request)) as Hs.
  set (w := {| self := e; calls := Api.app_calls app |}).
  assert (Hrej : top_k_rejected
            (resolve_top_k (config e) (Api.top_k_value (Api.top_k request)))
            = false).
  { destruct (Api.top_k request) as [k|]; simpl.
    - apply andb_prop in Hk. destruct Hk as [Hk _]. apply Z.leb_le in Hk.
      unfold top_k_rejected. simpl. apply Z.ltb_ge. lia.
    - unfold top_k_rejected. simpl. apply Z.ltb_ge. lia. }
  unfold Api.search. rewrite He. fold w.
  destruct (search env (PyStr (Api.query request))
              (Api.top_k_value (Api.top_k request)) w) as [r w1] eqn:Es.
  split.
  - intro H. destruct r as [found|x].
    + exfalso. simpl in H.
      destruct (Api.make_results found) as [items|y] eqn:Em;
        [discriminate|].
      assert (Hy : y = Exn ValueError).
      { clear -Em. revert y Em.
        induction found as [|[f s] found IH]; simpl; intros y Em;
          [discriminate|].
        unfold Api.make_SearchResult in Em.
        destruct (Rle_dec (-1) s); [|inversion Em; reflexivity].
        destruct (Rle_dec s 1); [|inversion Em; reflexivity].
        destruct (Api.make_results found); [discriminate|].
        inversion Em; subst. apply IH. reflexivity. }
      subst y. discriminate H.
    + simpl in H. unfold Api.on_exception in H.
      destruct (isinstance_exn x InvalidQueryError) eqn:Ex.
      * destruct (@search_InvalidQueryError _ _ _ _ _ _ Es Ex) as [Hacc|Hr].
        -- simpl in Hacc. apply andb_false_iff in Hacc.
           destruct Hacc as [Hacc|Hacc]; apply negb_false_iff in Hacc.
           ++ apply Z.ltb_lt in Hacc. exact Hacc.
           ++ apply Z.ltb_lt in Hacc. lia.
        -- simpl in Hr. rewrite Hrej in Hr. discriminate.
      * destruct (isinstance_exn x SearchError); discriminate.
  - intro Hshort. rewrite search_run in Es. simpl in Es.
    assert (Hacc : (len (strip (Api.query request))
                    <? MIN_QUERY_LENGTH (config e))%Z = true)
      by (apply Z.ltb_lt; exact Hshort).
    rewrite Hacc in Es. simpl in Es. inversion Es; subst. reflexivity.
Qed.

Lemma api_search_400_iff_stripped_query_too_short_witness :
  fst (Api.search Demo.env
         {| Api.query := pystr_of_string " a "; Api.top_k := Some 5%Z |}
         {| Api.search_engine := Some Demo.engine; Api.app_calls := [] |})
  = Api.HTTPException 400.
Proof.
  apply (proj2 (@api_search_400_iff_stripped_query_too_short
                  Demo.env
                  {| Api.query := pystr_of_string " a ";
                     Api.top_k := Some 5%Z |}
                  {| Api.search_engine := Some Demo.engine;
                     Api.app_calls := [] |}
                  Demo.engine eq_refl eq_refl
                  ltac:(simpl; lia) ltac:(simpl; lia))).
  reflexivity.
Defined.

Lemma make_results_out_of_range (found : list (pystr * R)) :
  Exists (fun p => (snd p < -1 \/ 1 < snd p)%R) found ->
  Api.make_results found = Raise (Exn ValueError).
Proof.
  induction found as [|[f s] found IH]; intro H; [inversion H|]. simpl.
  unfold Api.make_SearchResult.
  destruct (Rle_dec (-1) s) as [H1|H1]; [|reflexivity].
  destruct (Rle_dec s 1) as [H2|H2]; [|reflexivity].
  inversion H as [? ? Hh|? ? Ht]; subst.
  - simpl in Hh. lra.
  - rewrite (IH Ht). reflexivity.
Qed.

(** X21: when the engine returns a score outside [-1, 1], the endpoint
    does not answer: building the response fails the schema of
    [SearchResult], and this validation error is caught by neither
    [except] clause and leaves the endpoint. *)
Theorem api_search_rejects_out_of_range_score
        (env : Env) (request : Api.SearchRequest) (app : Api.App)
        (e : Engine) (found : list (pystr * R)) (w' : World) :
  Api.search_engine app = Some e ->
  search env (PyStr (Api.query request))
    (Api.top_k_value (Api.top_k request))
    {| self := e; calls := Api.app_calls app |} = (Ret found, w') ->
  Exists (fun p => (snd p < -1 \/ 1 < snd p)%R) found ->
  fst (Api.search env request app) = Api.Propagates (Exn ValueError).
Proof.
  intros He Hs Hex. unfold Api.search. rewrite He, Hs.
  rewrite (make_results_out_of_range Hex). reflexivity.
Qed.

Lemma api_search_rejects_out_of_range_score_witness :
  fst (Api.search Demo.raw_env
         {| Api.query := pystr_of_string "a red car"; Api.top_k := Some 1%Z |}
         {| Api.search_engine := Some Demo.raw_engine; Api.app_calls := [] |})
  = Api.Propagates (Exn ValueError).
Proof.
  apply (@api_search_rejects_out_of_range_score
           Demo.raw_env
           {| Api.query := pystr_of_string "a red car";
              Api.top_k := Some 1%Z |}
           {| Api.search_engine := Some Demo.raw_engine;
              Api.app_calls := [] |}
           Demo.raw_engine [(pystr_of_string "a.jpg", Demo.raw_score)]
           {| self := Demo.raw_engine; calls := Demo.search_calls 1 |}
           eq_refl demo_raw_search).
  constructor. simpl. right. rewrite demo_raw_score. lra.
Defined.

(** X22: a failure inside the engine never leaves the endpoint as it is:
    when the inputs pass the engine's checks and the tokenizer, the model
    or a ranking step raises an [Exception], the endpoint answers 500. *)
Theorem api_search_500_on_engine_failure
        (env : Env) (request : Api.SearchRequest) (app : Api.App)
        (e : Engine) (x : exn) (w1 : World) :
  Api.search_engine app = Some e ->
  valid_query (config e) (PyStr (Api.query request)) ->
  positive_int
    (resolve_top_k (config e) (Api.top_k_value (Api.top_k request))) ->
  search_body env (PyStr (Api.query request))
    (py_min (resolve_top_k (config e) (Api.top_k_value (Api.top_k request)))
            (num_images_of e))
    {| self := e; calls := Api.app_calls app |} = (Raise x, w1) ->
  isinstance_exn x Exception = true ->
  fst (Api.search env request app) = Api.HTTPException 500.
Proof.
  intros He Hq Hk Hb Hx.
  apply query_accepted_iff in Hq. apply top_k_rejected_false_iff in Hk.
  unfold Api.search. rewrite He, search_run. simpl self.
  rewrite Hq, Hk. unfold try_except. rewrite Hb, Hx. reflexivity.
Qed.

Lemma api_search_500_on_engine_failure_witness :
  fst (Api.search Demo.failing_env
         {| Api.query := pystr_of_string "a red car"; Api.top_k := Some 1%Z |}
         {| Api.search_engine := Some Demo.failing_engine;
            Api.app_calls := [] |})
  = Api.HTTPException 500.
Proof.
  apply (@api_search_500_on_engine_failure
           Demo.failing_env
           {| Api.query := pystr_of_string "a red car";
              Api.top_k := Some 1%Z |}
           {| Api.search_engine := Some Demo.failing_engine;
              Api.app_calls := [] |}
           Demo.failing_engine (Exn RuntimeError)
           {| self := Demo.failing_engine;
              calls := [EvTokenize [Demo.query];
                        EvEncodeText [[49406; 49407]%Z]] |}
           eq_refl demo_valid_query).
  - exists 1%Z. split; [reflexivity | lia].
  - exact demo_failing_body.
  - reflexivity.
Defined.
